(** * Virtual roaster driver: a shallow embedding

    The driver of [src/drivers/virtual_driver/index.ts] together with the
    retry policy of [src/drivers/common/abstractDriver.ts] and the types of
    [src/drivers/driver_types/index.ts].

    - JavaScript numbers that hold measures are IEEE-754 binary64 values:
      Rocq's primitive floats, with the same rounding.
    - Counters that start at 0 and only ever see [++] are [nat].
    - Integer-valued configuration values are [Z].
    - [undefined] / [null] are [None]; arithmetic on [undefined] yields NaN.
    - The closure variables of [virtualDriver] ([state], [params],
      [updateCycleId]), the timer table of the host and the console make up
      the record [Driver]; every function of the closure is a transformer of
      that record.
    - [Math.random()] and [getNewMeasure()] ([utils/math] is not part of
      the sources at hand) are inputs of the operation that draws them.
    - The functions are [async], on a single thread: the writes of one call
      happen in program order, and every [await] met by [connect], [command]
      and the update cycle waits on a promise that is already settled, so
      their continuations run before the next timer or client callback.
      Each is therefore one atomic step.  Only [moveBurnerLevel] pauses for
      real (one second per step); it is modelled run to completion, with
      fuel, since its loop need not end for every target. *)

From Stdlib Require Import Floats ZArith Bool List String Lia PeanoNat.

#[local] Set Warnings "-inexact-float".
Import ListNotations.

Local Open Scope float_scope.

(** ** driver_types *)

(** Keys of [state.measures.byId]. *)
Inductive MeasureKey : Set :=
| beanTemperature
| airTemperature
| burnerLevel.

(** [type ICommandKey = "burnerLevel"]. *)
Inductive ICommandKey : Set :=
| burnerLevelCommand.

(** A command key is used verbatim as a measure key:
    [state.measures.byId[commandKey]]. *)
Definition measureKey (k : ICommandKey) : MeasureKey :=
  match k with burnerLevelCommand => burnerLevel end.

Record IMeasure : Set := mkMeasure {
  value : float;
  type : string;
  hasTarget : bool;
  targetValue : option float;
  previousValue : option float
}.

Record LastCommand : Set := mkLastCommand {
  verb : option string;
  target : option float
}.

(** The callables that are ever stored in the [command] field. *)
Inductive CommandFn : Set :=
| changeBurnerLevelFn.

Record ICommand : Set := mkCommand {
  linkedMeasure : MeasureKey;
  commandFn : CommandFn;
  min : float;
  max : float;
  issuingCommand : bool;
  lastCommand : LastCommand;
  frequencyCycleCounter : nat;
  retriesCounter : nat;
  supportedVerbs : list string
}.

Record MeasuresById : Set := mkMeasuresById {
  m_beanTemperature : IMeasure;
  m_airTemperature : IMeasure;
  m_burnerLevel : IMeasure
}.

Record Measures : Set := mkMeasures {
  measuresById : MeasuresById;
  measuresByName : list MeasureKey
}.

Record CommandsById : Set := mkCommandsById {
  c_burnerLevel : ICommand
}.

Record Commands : Set := mkCommands {
  commandsById : CommandsById;
  commandsByName : list ICommandKey
}.

Record IState : Set := mkState {
  measures : Measures;
  commands : Commands;
  connected : bool;
  failedConnections : nat
}.

(** The [value] of each parameter; the customer-facing texts carry no logic. *)
Record IParams : Set := mkParams {
  connectionRejectionPercentage : float;
  disconnectionOnUpdatePercentage : float;
  samplingFrequency : Z;
  maxReconnectionAttempts : Z;
  commandRetryLimited : bool;
  maxNumberOfRetries : Z;
  retryFrequency : Z
}.

(** ** Host: timers and console *)

Inductive Callback : Set :=
| connectCallback        (* [async () => await connect()] *)
| updateCycleCallback.   (* the body given to [setInterval] *)

Inductive Timer : Set :=
| Timeout (cb : Callback) (delay : Z)
| Interval (cb : Callback) (period : Z).

(** What the driver writes to the console, one constructor per
    [console.log] of the source, and [Invoked] for each call made through
    the stored [command] field. *)
Inductive Event : Set :=
| LogConnecting (attempt : nat)
| LogSucceededToCreateConnection
| LogSuccessfullyConnected
| LogFailedToConnect
| LogIssuingCommand (control : ICommandKey) (v : string) (t : float)
| LogChangingTarget
| LogNotImplemented (v : option string) (t : option float)
| LogChangingBurnerLevelTo (endLevel : float)
| LogShouldRetry (requestedTargetChange progressionNotObserved
                  canRetryCommand : bool) (currentDistance previousDistance : float)
| LogStopCommand
| LogUpdatingMeasures
| LogUpdated (key : MeasureKey) (v : float)
| Invoked (control : ICommandKey) (v : option string) (t : option float).

Record Driver : Set := mkDriver {
  state : IState;
  params : IParams;
  updateCycleId : option nat;
  timers : list (nat * Timer);
  nextTimerId : nat;
  console : list Event
}.

(** ** Field access and update *)

Definition getMeasure (s : IState) (k : MeasureKey) : IMeasure :=
  let t := measuresById (measures s) in
  match k with
  | beanTemperature => m_beanTemperature t
  | airTemperature => m_airTemperature t
  | burnerLevel => m_burnerLevel t
  end.

Definition getCommand (s : IState) (k : ICommandKey) : ICommand :=
  match k with
  | burnerLevelCommand => c_burnerLevel (commandsById (commands s))
  end.

Definition setMeasure (k : MeasureKey) (m : IMeasure) (s : IState) : IState :=
  let t := measuresById (measures s) in
  let t' :=
    match k with
    | beanTemperature =>
        mkMeasuresById m (m_airTemperature t) (m_burnerLevel t)
    | airTemperature =>
        mkMeasuresById (m_beanTemperature t) m (m_burnerLevel t)
    | burnerLevel =>
        mkMeasuresById (m_beanTemperature t) (m_airTemperature t) m
    end in
  mkState (mkMeasures t' (measuresByName (measures s)))
          (commands s) (connected s) (failedConnections s).

Definition setCommand (k : ICommandKey) (c : ICommand) (s : IState) : IState :=
  match k with
  | burnerLevelCommand =>
      mkState (measures s)
              (mkCommands (mkCommandsById c) (commandsByName (commands s)))
              (connected s) (failedConnections s)
  end.

Definition setConnected (b : bool) (s : IState) : IState :=
  mkState (measures s) (commands s) b (failedConnections s).

Definition setFailedConnections (n : nat) (s : IState) : IState :=
  mkState (measures s) (commands s) (connected s) n.

Definition withValue (v : float) (m : IMeasure) : IMeasure :=
  mkMeasure v (type m) (hasTarget m) (targetValue m) (previousValue m).

Definition withTargetValue (t : option float) (m : IMeasure) : IMeasure :=
  mkMeasure (value m) (type m) (hasTarget m) t (previousValue m).

Definition withPreviousValue (p : option float) (m : IMeasure) : IMeasure :=
  mkMeasure (value m) (type m) (hasTarget m) (targetValue m) p.

Definition withIssuingCommand (b : bool) (c : ICommand) : ICommand :=
  mkCommand (linkedMeasure c) (commandFn c) (min c) (max c) b (lastCommand c)
            (frequencyCycleCounter c) (retriesCounter c) (supportedVerbs c).

Definition withLastCommand (l : LastCommand) (c : ICommand) : ICommand :=
  mkCommand (linkedMeasure c) (commandFn c) (min c) (max c) (issuingCommand c) l
            (frequencyCycleCounter c) (retriesCounter c) (supportedVerbs c).

Definition withRetriesCounter (n : nat) (c : ICommand) : ICommand :=
  mkCommand (linkedMeasure c) (commandFn c) (min c) (max c) (issuingCommand c)
            (lastCommand c) (frequencyCycleCounter c) n (supportedVerbs c).

Definition withState (s : IState) (d : Driver) : Driver :=
  mkDriver s (params d) (updateCycleId d) (timers d) (nextTimerId d) (console d).

Definition onState (f : IState -> IState) (d : Driver) : Driver :=
  withState (f (state d)) d.

Definition onMeasure (k : MeasureKey) (f : IMeasure -> IMeasure) : Driver -> Driver :=
  onState (fun s => setMeasure k (f (getMeasure s k)) s).

Definition onCommand (k : ICommandKey) (f : ICommand -> ICommand) : Driver -> Driver :=
  onState (fun s => setCommand k (f (getCommand s k)) s).

(** [console.log]. *)
Definition log (e : Event) (d : Driver) : Driver :=
  mkDriver (state d) (params d) (updateCycleId d) (timers d) (nextTimerId d)
           (console d ++ [e]).

(** [setTimeout] and [setInterval] register a timer under a fresh id. *)
Definition addTimer (t : Timer) (d : Driver) : nat * Driver :=
  (nextTimerId d,
   mkDriver (state d) (params d) (updateCycleId d)
            (timers d ++ [(nextTimerId d, t)]) (S (nextTimerId d)) (console d)).

(** [clearInterval(id)]; an [undefined] id clears nothing. *)
Definition clearInterval (id : option nat) (d : Driver) : Driver :=
  match id with
  | None => d
  | Some i =>
      mkDriver (state d) (params d) (updateCycleId d)
               (filter (fun e => negb (Nat.eqb (fst e) i)) (timers d))
               (nextTimerId d) (console d)
  end.

Definition setUpdateCycleId (id : option nat) (d : Driver) : Driver :=
  mkDriver (state d) (params d) id (timers d) (nextTimerId d) (console d).

(** A number read from an optional field: [undefined] behaves as NaN in
    arithmetic and comparisons. *)
Definition num (o : option float) : float :=
  match o with
  | Some x => x
  | None => nan
  end.

(** ** The closure [virtualDriver] *)

Definition initialState : IState :=
  mkState
    (mkMeasures
       (mkMeasuresById
          (mkMeasure 0 "temperature" false None None)
          (mkMeasure 0 "temperature" false None None)
          (mkMeasure 0 "percentage" true (Some 0) (Some 0)))
       [beanTemperature; airTemperature; burnerLevel])
    (mkCommands
       (mkCommandsById
          (mkCommand burnerLevel changeBurnerLevelFn 0 100 false
                     (mkLastCommand None None) 0%nat 0%nat
                     ["set_to"; "take_control"; "increase"; "decrease"]%string))
       [burnerLevelCommand])
    false 0%nat.

Definition defaultParams : IParams :=
  mkParams 50 1 1000%Z 0%Z true 10%Z 1%Z.

Definition virtualDriver (existingParams : option IParams) : Driver :=
  mkDriver initialState
           (match existingParams with Some p => p | None => defaultParams end)
           None [] 1%nat [].

(** *** abstractDriver.ts: the retry policy *)

Definition requestedTargetChange (k : ICommandKey) (s : IState) : bool :=
  issuingCommand (getCommand s k).

Definition currentDistance (k : ICommandKey) (s : IState) : float :=
  value (getMeasure s (measureKey k))
  - num (targetValue (getMeasure s (measureKey k))).

Definition previousDistance (k : ICommandKey) (s : IState) : float :=
  num (previousValue (getMeasure s (measureKey k)))
  - num (targetValue (getMeasure s (measureKey k))).

(** [Math.abs(currentDistance) >= Math.abs(previousDistance) ? true : false] *)
Definition progressionNotObserved (k : ICommandKey) (s : IState) : bool :=
  if abs (previousDistance k s) <=? abs (currentDistance k s) then true else false.

Definition canRetryCommand (k : ICommandKey) (s : IState) (p : IParams) : bool :=
  (commandRetryLimited p
   && (Z.of_nat (retriesCounter (getCommand s k)) <=? maxNumberOfRetries p)%Z)
  || negb (commandRetryLimited p).

Definition shouldRetryCommand (k : ICommandKey) (s : IState) (p : IParams) : bool :=
  requestedTargetChange k s && progressionNotObserved k s && canRetryCommand k s p.

(** The object that [shouldRetryCommand] prints before it returns. *)
Definition shouldRetryCommandLog (k : ICommandKey) (s : IState) (p : IParams) : Event :=
  LogShouldRetry (requestedTargetChange k s) (progressionNotObserved k s)
                 (canRetryCommand k s p) (currentDistance k s) (previousDistance k s).

(** *** Commands *)

Definition changeBurnerLevelTo (t : option float) : Driver -> Driver :=
  onMeasure burnerLevel (withTargetValue t).

(** [switch (verb)]: a verb that is [undefined] matches no [case]. *)
Definition changeBurnerLevel (v : option string) (t : option float)
    (d : Driver) : Driver :=
  match v with
  | Some w =>
      if String.eqb w "set_to" then
        changeBurnerLevelTo t (log LogChangingTarget d)
      else if String.eqb w "increase" then
        changeBurnerLevelTo
          (Some (value (getMeasure (state d) burnerLevel) + num t)) d
      else log (LogNotImplemented v t) d
  | None => log (LogNotImplemented v t) d
  end.

(** [state.commands.byId[k].command(v, t)] *)
Definition invoke (k : ICommandKey) (v : option string) (t : option float)
    (d : Driver) : Driver :=
  match commandFn (getCommand (state d) k) with
  | changeBurnerLevelFn => changeBurnerLevel v t (log (Invoked k v t) d)
  end.

Definition command (control : ICommandKey) (v : string) (t : float)
    (d : Driver) : Driver :=
  let d := log (LogIssuingCommand control v t) d in
  let d := onCommand control (withIssuingCommand true) d in
  let d := onCommand control
             (fun c => withLastCommand (mkLastCommand (Some v) (target (lastCommand c))) c) d in
  let d := onCommand control
             (fun c => withLastCommand (mkLastCommand (verb (lastCommand c)) (Some t)) c) d in
  let d := onMeasure (measureKey control)
             (fun m => withPreviousValue (Some (value m)) m) d in
  let d := onMeasure (measureKey control) (withTargetValue (Some t)) d in
  invoke control (Some v) (Some t) d.

(** *** The stepping routine *)

Definition endLevelVariance : float := 0.95.

(** The condition of the [while] of [moveBurnerLevel]. *)
Definition moveCondition (increment endLevel : float) (d : Driver) : bool :=
  ((0 <? increment)
   && (value (getMeasure (state d) burnerLevel) <? endLevel * endLevelVariance))
  || ((increment <? 0)
      && (endLevel * endLevelVariance <? value (getMeasure (state d) burnerLevel))).

(** The body of the [while], up to its one-second pause. *)
Definition moveBody (increment : float) : Driver -> Driver :=
  onMeasure burnerLevel (fun m => withValue (value m + increment) m).

Fixpoint moveLoop (fuel : nat) (increment endLevel : float) (d : Driver)
    : option Driver :=
  match fuel with
  | O => None
  | S n =>
      if moveCondition increment endLevel d
      then moveLoop n increment endLevel (moveBody increment d)
      else Some d
  end.

(** [moveBurnerLevel], run without interleaving; [None] when [fuel]
    evaluations of the loop condition do not suffice. *)
Definition moveBurnerLevel (fuel : nat) (d : Driver) : option Driver :=
  let endLevel := num (targetValue (getMeasure (state d) burnerLevel)) in
  let currentLevel := value (getMeasure (state d) burnerLevel) in
  let d := log (LogChangingBurnerLevelTo endLevel) d in
  let increment := if currentLevel <? endLevel then 0.5 else -0.5 in
  moveLoop fuel increment endLevel d.

(** *** Retry and convergence *)

Definition retryCommand (k : ICommandKey) (d : Driver) : Driver :=
  let d := invoke k None None d in
  let d := onCommand k (fun c => withRetriesCounter (S (retriesCounter c)) c) d in
  onMeasure (measureKey k) (fun m => withPreviousValue (Some (value m)) m) d.

(** The convergence test of [checkCommand]. *)
Definition withinTolerance (k : ICommandKey) (s : IState) : bool :=
  abs (value (getMeasure s (measureKey k))
       - num (targetValue (getMeasure s (measureKey k))))
  <=? 0.01 * value (getMeasure s (measureKey k)).

Definition checkCommand (k : ICommandKey) (d : Driver) : Driver :=
  let retry := shouldRetryCommand k (state d) (params d) in
  let d := log (shouldRetryCommandLog k (state d) (params d)) d in
  let d := if retry then retryCommand k d else d in
  if withinTolerance k (state d) && issuingCommand (getCommand (state d) k)
  then onCommand k (withIssuingCommand false) (log LogStopCommand d)
  else d.

(** *** Update cycle *)

(** The callback of the first [map] of the update cycle; [draw key] is what
    [getNewMeasure()] returns for [key] on this tick. *)
Definition updateMeasure (draw : MeasureKey -> float) (d : Driver)
    (key : MeasureKey) : Driver :=
  if negb (hasTarget (getMeasure (state d) key)) then
    let d := onMeasure key (withValue (draw key)) d in
    log (LogUpdated key (value (getMeasure (state d) key))) d
  else d.

(** The callback of the second [map]. *)
Definition updateCommand (d : Driver) (key : ICommandKey) : Driver :=
  let d := checkCommand key d in
  onMeasure (measureKey key) (fun m => withPreviousValue (Some (value m)) m) d.

(** One firing of the interval set up by [startUpdateCycle]. *)
Definition updateCycle (draw : MeasureKey -> float) (d : Driver) : Driver :=
  let d := log LogUpdatingMeasures d in
  let d := fold_left (updateMeasure draw) (measuresByName (measures (state d))) d in
  fold_left updateCommand (commandsByName (commands (state d))) d.

Definition startUpdateCycle (frequency : Z) (d : Driver) : Driver :=
  let '(id, d) := addTimer (Interval updateCycleCallback frequency) d in
  setUpdateCycleId (Some id) d.

(** *** Connection *)

Inductive Settled : Set :=
| Resolved (v : string)
| Rejected (e : string).

(** [randomNumber] is the value [Math.random()] returns. *)
Definition createConnection (rejectionPercentage randomNumber : float)
    (d : Driver) : Settled * Driver :=
  if randomNumber <? rejectionPercentage
  then (Rejected "Random rejection", d)
  else (Resolved "Success", log LogSucceededToCreateConnection d).

Definition connect (randomNumber : float) (d : Driver) : Driver :=
  let d := log (LogConnecting (failedConnections (state d) + 1)) d in
  match createConnection (connectionRejectionPercentage (params d) / 100.0)
                         randomNumber d with
  | (Resolved _, d) =>
      let d := onState (setFailedConnections 0) d in
      let d := onState (setConnected true) d in
      let d := startUpdateCycle (samplingFrequency (params d)) d in
      log LogSuccessfullyConnected d
  | (Rejected _, d) =>
      let d := log LogFailedToConnect d in
      let d := onState (fun s => setFailedConnections (S (failedConnections s)) s) d in
      let d := onState (setConnected false) d in
      if (maxReconnectionAttempts (params d) =? 0)%Z
         || (Z.of_nat (failedConnections (state d)) <? maxReconnectionAttempts (params d))%Z
      then snd (addTimer (Timeout connectCallback 1000) d)
      else d
  end.

Definition disconnect (d : Driver) : Driver :=
  let d := onState (setConnected false) d in
  clearInterval (updateCycleId d) d.

(** ** Runs of the driver *)

Definition setParams (p : IParams) (d : Driver) : Driver :=
  mkDriver (state d) p (updateCycleId d) (timers d) (nextTimerId d) (console d).

(** What can happen to a driver: the calls of its interface, the two timer
    callbacks, the private [checkCommand] and [retryCommand], and a write
    by the client to the exported [params]. *)
Inductive Op : Type :=
| OpConnect (randomNumber : float)
| OpDisconnect
| OpCommand (control : ICommandKey) (v : string) (t : float)
| OpCheckCommand (k : ICommandKey)
| OpRetryCommand (k : ICommandKey)
| OpUpdateCycle (draw : MeasureKey -> float)
| OpSetParams (p : IParams).

Definition step (d : Driver) (o : Op) : Driver :=
  match o with
  | OpConnect r => connect r d
  | OpDisconnect => disconnect d
  | OpCommand k v t => command k v t d
  | OpCheckCommand k => checkCommand k d
  | OpRetryCommand k => retryCommand k d
  | OpUpdateCycle draw => updateCycle draw d
  | OpSetParams p => setParams p d
  end.

Definition run (ops : list Op) (d : Driver) : Driver := fold_left step ops d.

(** Shorthands for the fields the properties speak of. *)
Definition valueOf (k : MeasureKey) (d : Driver) : float :=
  value (getMeasure (state d) k).

Definition targetOf (k : ICommandKey) (d : Driver) : option float :=
  targetValue (getMeasure (state d) (measureKey k)).

Definition previousOf (k : ICommandKey) (d : Driver) : option float :=
  previousValue (getMeasure (state d) (measureKey k)).

Definition issuing (k : ICommandKey) (d : Driver) : bool :=
  issuingCommand (getCommand (state d) k).

Definition retries (k : ICommandKey) (d : Driver) : nat :=
  retriesCounter (getCommand (state d) k).

Definition isInvocation (e : Event) : bool :=
  match e with Invoked _ _ _ => true | _ => false end.

Definition isMoveLog (e : Event) : bool :=
  match e with LogChangingBurnerLevelTo _ => true | _ => false end.

(** ** Vocabulary of the properties *)

(** The events a driver function appended to the console. *)
Definition appended (d d' : Driver) (evs : list Event) : Prop :=
  console d' = console d ++ evs.

Definition noMoveLog (evs : list Event) : bool :=
  forallb (fun e => negb (isMoveLog e)) evs.

(** [Frame d d']: from [d] to [d'] no measure changed its [hasTarget] flag,
    no measure that has a target changed its value, no retry counter went
    down, and the console grew by lines other than the one printed by
    [moveBurnerLevel]. *)
Record Frame (d d' : Driver) : Prop := mkFrame {
  frame_hasTarget :
    forall key, hasTarget (getMeasure (state d') key)
                = hasTarget (getMeasure (state d) key);
  frame_value :
    forall key, hasTarget (getMeasure (state d) key) = true ->
                valueOf key d' = valueOf key d;
  frame_retries :
    forall k, (retries k d <= retries k d')%nat;
  frame_console :
    exists evs, appended d d' evs /\ noMoveLog evs = true
}.

(** The two outcomes of [connect], written out. *)
Definition connectFailed (d : Driver) : Driver :=
  let d := log (LogConnecting (failedConnections (state d) + 1)) d in
  let d := log LogFailedToConnect d in
  let d := onState (fun s => setFailedConnections (S (failedConnections s)) s) d in
  onState (setConnected false) d.

Definition retryAllowed (d : Driver) : bool :=
  (maxReconnectionAttempts (params d) =? 0)%Z
  || (Z.of_nat (S (failedConnections (state d))) <? maxReconnectionAttempts (params d))%Z.

(** The writes [command] makes before it dispatches on the verb. *)
Definition commandSetup (control : ICommandKey) (v : string) (t : float)
    (s : IState) : IState :=
  let m := getMeasure s (measureKey control) in
  let c := getCommand s control in
  setMeasure (measureKey control)
    (mkMeasure (value m) (type m) (hasTarget m) (Some t) (Some (value m)))
    (setCommand control
       (withLastCommand (mkLastCommand (Some v) (Some t))
                        (withIssuingCommand true c))
       s).

(** [Pending v t d]: the burner measure has a target, its value is [v], its
    target [t], and the command is being issued. *)
Definition Pending (v : float) (t : option float) (d : Driver) : Prop :=
  hasTarget (getMeasure (state d) burnerLevel) = true
  /\ valueOf burnerLevel d = v
  /\ targetOf burnerLevelCommand d = t
  /\ issuing burnerLevelCommand d = true.

(** ** The application shell and the host's event loop *)

(** [App.tsx]: the handler of the "+ 10" button. *)
Definition handleIncrementByTen : Driver -> Driver :=
  command burnerLevelCommand "increase" 10.

(** What a timer runs when it fires; [randomNumber] and [draw] are the
    random inputs the callback consumes. *)
Definition runCallback (cb : Callback) (randomNumber : float)
    (draw : MeasureKey -> float) (d : Driver) : Driver :=
  match cb with
  | connectCallback => connect randomNumber d
  | updateCycleCallback => updateCycle draw d
  end.

(** The host fires timer [id]: a timeout is spent before its callback runs,
    an interval stays registered; an id that is not registered fires
    nothing. *)
Definition fire (id : nat) (randomNumber : float) (draw : MeasureKey -> float)
    (d : Driver) : Driver :=
  match find (fun e => Nat.eqb (fst e) id) (timers d) with
  | Some (_, Timeout cb _) =>
      runCallback cb randomNumber draw (clearInterval (Some id) d)
  | Some (_, Interval cb _) => runCallback cb randomNumber draw d
  | None => d
  end.

Definition isReconnect (e : nat * Timer) : bool :=
  match snd e with
  | Timeout connectCallback _ => true
  | _ => false
  end.

(** The id of the reconnection attempt that is waiting, if any. *)
Definition pendingReconnect (d : Driver) : option nat :=
  option_map fst (find isReconnect (timers d)).

(** The host lets the waiting reconnection attempts fire, one per draw of
    [rs], until none is waiting. *)
Fixpoint autoReconnect (rs : list float) (d : Driver) : Driver :=
  match rs with
  | [] => d
  | r :: rs' =>
      match pendingReconnect d with
      | Some id => autoReconnect rs' (fire id r (fun _ => 0) d)
      | None => d
      end
  end.

(** ** More vocabulary *)

(** The fields of a measure and of a command that describe it rather than
    track it. *)
Definition measureShape (m : IMeasure) : string * bool :=
  (type m, hasTarget m).

Definition commandShape (c : ICommand)
    : MeasureKey * CommandFn * float * float * nat * list string :=
  (linkedMeasure c, commandFn c, min c, max c, frequencyCycleCounter c,
   supportedVerbs c).

Definition shape (s : IState) :=
  (measuresByName (measures s),
   commandsByName (commands s),
   (measureShape (getMeasure s beanTemperature),
    measureShape (getMeasure s airTemperature),
    measureShape (getMeasure s burnerLevel)),
   commandShape (getCommand s burnerLevelCommand)).

Definition isCommandOp (o : Op) : bool :=
  match o with OpCommand _ _ _ => true | _ => false end.

(** The operations through which a retry can only come by way of the
    retry policy, under unchanged parameters. *)
Definition isPolicedOp (o : Op) : bool :=
  match o with
  | OpRetryCommand _ | OpSetParams _ => false
  | _ => true
  end.

(** The state [s] with the burner level's value replaced by [x]. *)
Definition setBurnerValue (x : float) (s : IState) : IState :=
  setMeasure burnerLevel (withValue x (getMeasure s burnerLevel)) s.

(** The retry counter after one more update cycle of a command that makes
    no progress. *)
Definition nextRetries (p : IParams) (r : nat) : nat :=
  if (commandRetryLimited p && (Z.of_nat r <=? maxNumberOfRetries p)%Z)
     || negb (commandRetryLimited p)
  then S r else r.

(** [Stalled v t r p d]: the burner command is pending at value [v] and
    target [t], the value has not moved since the previous check, the
    command has been retried [r] times, and it is the one command that an
    update cycle checks, under parameters [p]. *)
Definition Stalled (v : float) (t : option float) (r : nat) (p : IParams)
    (d : Driver) : Prop :=
  Pending v t d
  /\ previousOf burnerLevelCommand d = Some v
  /\ retries burnerLevelCommand d = r
  /\ commandsByName (commands (state d)) = [burnerLevelCommand]
  /\ params d = p.

(** [Keeps P]: the driver function [f] keeps the property [P]. *)
Definition Keeps (P : Driver -> Prop) (f : Driver -> Driver) : Prop :=
  forall d, P d -> P (f d).

Definition isRetryOp (o : Op) : bool :=
  match o with OpRetryCommand _ => true | _ => false end.

(** The part of a driver the command logic reads. *)
Definition view (d : Driver) : Measures * Commands * IParams :=
  (measures (state d), commands (state d), params d).

(** [Exhausted p r d]: the driver runs under parameters [p] and the burner
    command has been retried [r] times. *)
Definition Exhausted (p : IParams) (r : nat) (d : Driver) : Prop :=
  params d = p /\ retries burnerLevelCommand d = r.

(** [Wedged t r d]: the burner command is being issued towards [t] and
    has been retried [r] times. *)
Definition Wedged (t : option float) (r : nat) (d : Driver) : Prop :=
  issuing burnerLevelCommand d = true
  /\ targetOf burnerLevelCommand d = t
  /\ retries burnerLevelCommand d = r.

Definition measureKey_eqb (a b : MeasureKey) : bool :=
  match a, b with
  | beanTemperature, beanTemperature
  | airTemperature, airTemperature
  | burnerLevel, burnerLevel => true
  | _, _ => false
  end.

(** Whether an update cycle redraws the measure [key]: it is listed in
    [byName] and has no target. *)
Definition redrawn (key : MeasureKey) (s : IState) : bool :=
  existsb (measureKey_eqb key) (measuresByName (measures s))
  && negb (hasTarget (getMeasure s key)).

(** [Idle c d]: the table of commands is [c]. *)
Definition Idle (c : Commands) (d : Driver) : Prop :=
  commands (state d) = c.

(** Whether the [j]-th failed attempt in a row schedules another one, under
    the limit [m] of [maxReconnectionAttempts]. *)
Definition reconnecting (m : Z) (j : nat) : bool :=
  (m =? 0)%Z || (Z.of_nat j <? m)%Z.

(** The number of failed attempts in a row after [n] more chances to
    fire, starting from [j]. *)
Fixpoint attemptsAfter (m : Z) (j n : nat) : nat :=
  match n with
  | O => j
  | S n' => if reconnecting m j then attemptsAfter m (S j) n' else j
  end.

(** [Reconnecting p j d]: under parameters [p] the driver has failed to
    connect [j] times in a row, and the only timer registered is the next
    attempt, if one is due. *)
Definition Reconnecting (p : IParams) (j : nat) (d : Driver) : Prop :=
  params d = p
  /\ failedConnections (state d) = j
  /\ connected (state d) = false
  /\ timers d
     = if reconnecting (maxReconnectionAttempts p) j
       then [(Nat.pred (nextTimerId d), Timeout connectCallback 1000)]
       else [].

(** Draws that [createConnection] rejects under [p]. *)
Definition rejectedUnder (p : IParams) (r : float) : Prop :=
  (r <? connectionRejectionPercentage p / 100.0) = true.

(** ** Comparisons of binary64 values *)

Lemma SFcompare_antisym (x y : spec_float) :
  SFcompare y x = option_map CompOpp (SFcompare x y).
Proof.
  destruct x as [sx|sx| |sx mx ex], y as [sy|sy| |sy my ey];
    try destruct sx; try destruct sy; cbn; try reflexivity.
  - rewrite (Z.compare_antisym ey ex).
    destruct (ey ?= ex)%Z; cbn; try reflexivity.
    now rewrite (Pos.compare_cont_antisym mx my Eq).
  - rewrite (Z.compare_antisym ey ex).
    destruct (ey ?= ex)%Z; cbn; try reflexivity.
    now rewrite (Pos.compare_cont_antisym mx my Eq).
Qed.

(** [x <= y] excludes [y < x]. *)
Lemma ltb_false_of_leb (x y : float) : (x <=? y) = true -> (y <? x) = false.
Proof.
  rewrite FloatAxioms.leb_spec, FloatAxioms.ltb_spec. unfold SFleb, SFltb.
  rewrite (SFcompare_antisym (Prim2SF x) (Prim2SF y)).
  destruct (SFcompare (Prim2SF x) (Prim2SF y)) as [[| |]|]; cbn; congruence.
Qed.

(** Equal distances compare as [<=] in either direction. *)
Lemma leb_of_eqb (x y : float) : (x =? y) = true -> (y <=? x) = true.
Proof.
  rewrite FloatAxioms.eqb_spec, FloatAxioms.leb_spec. unfold SFeqb, SFleb.
  rewrite (SFcompare_antisym (Prim2SF x) (Prim2SF y)).
  destruct (SFcompare (Prim2SF x) (Prim2SF y)) as [[| |]|]; cbn; congruence.
Qed.

(** ** The retry policy *)

(** C3: [shouldRetryCommand] returns true exactly when a command is being
    issued, the distance to the target did not strictly decrease
    ([|value - targetValue| >= |previousValue - targetValue|], equal distances
    included), and the retry budget allows it ([commandRetryLimited] is off,
    or [retriesCounter <= maxNumberOfRetries]).  With a limit of 0 retries it
    is true only at [retriesCounter = 0], and false from [retriesCounter >= 1]
    on whatever the progress; it is false whenever no command is being issued. *)
Theorem shouldRetryCommand_spec (k : ICommandKey) (s : IState) (p : IParams) :
  let v := value (getMeasure s (measureKey k)) in
  let t := num (targetValue (getMeasure s (measureKey k))) in
  let pv := num (previousValue (getMeasure s (measureKey k))) in
  let r := retriesCounter (getCommand s k) in
  let noProgress := abs (pv - t) <=? abs (v - t) in
  (shouldRetryCommand k s p = true <->
     issuingCommand (getCommand s k) = true
     /\ noProgress = true
     /\ (commandRetryLimited p = false \/ (Z.of_nat r <= maxNumberOfRetries p)%Z))
  /\ ((abs (v - t) =? abs (pv - t)) = true -> noProgress = true)
  /\ (commandRetryLimited p = true -> maxNumberOfRetries p = 0%Z ->
      (shouldRetryCommand k s p = true -> r = 0%nat)
      /\ (r = 0%nat -> shouldRetryCommand k s p
                       = issuingCommand (getCommand s k) && noProgress)
      /\ ((1 <= r)%nat -> shouldRetryCommand k s p = false))
  /\ (issuingCommand (getCommand s k) = false -> shouldRetryCommand k s p = false).
Proof.
  cbv zeta.
  unfold shouldRetryCommand, requestedTargetChange, progressionNotObserved,
    canRetryCommand, currentDistance, previousDistance.
  set (v := value _). set (t := num (targetValue _)). set (pv := num (previousValue _)).
  set (r := retriesCounter _).
  assert (Hboundary : (abs (v - t) =? abs (pv - t)) = true ->
                      (abs (pv - t) <=? abs (v - t)) = true)
    by apply leb_of_eqb.
  revert Hboundary.
  generalize (abs (pv - t) <=? abs (v - t)) as np.
  generalize (abs (v - t) =? abs (pv - t)) as eqd.
  intros eqd np Hboundary.
  destruct (issuingCommand (getCommand s k)), np, (commandRetryLimited p);
    destruct (Z.leb_spec (Z.of_nat r) (maxNumberOfRetries p)); cbn;
    repeat split; intros; subst;
    repeat match goal with
           | H : _ /\ _ |- _ => destruct H
           | H : _ \/ _ |- _ => destruct H
           end;
    try congruence; try lia; auto.
Qed.

(** ** Retrying *)

(** Called without arguments, the stored behaviour falls through to the
    [default] branch: it prints and leaves the state as it is. *)
Lemma invoke_no_arguments (k : ICommandKey) (d : Driver) :
  invoke k None None d
  = log (LogNotImplemented None None) (log (Invoked k None None) d).
Proof.
  unfold invoke. destruct (commandFn _). reflexivity.
Qed.

Lemma retryCommand_state (k : ICommandKey) (d : Driver) :
  state (retryCommand k d)
  = setMeasure (measureKey k)
      (withPreviousValue (Some (value (getMeasure (state d) (measureKey k))))
                         (getMeasure (state d) (measureKey k)))
      (setCommand k
         (withRetriesCounter (S (retriesCounter (getCommand (state d) k)))
                             (getCommand (state d) k))
         (state d)).
Proof.
  unfold retryCommand. rewrite invoke_no_arguments. destruct k. reflexivity.
Qed.

Lemma retryCommand_console (k : ICommandKey) (d : Driver) :
  console (retryCommand k d)
  = console d ++ [Invoked k None None; LogNotImplemented None None].
Proof.
  unfold retryCommand. rewrite invoke_no_arguments. cbn.
  now rewrite <- app_assoc.
Qed.

(** C10: [retryCommand] calls the stored behaviour with no arguments, which
    lands in the not-implemented branch of the verb dispatch; all it does to
    the state is add 1 to [retriesCounter] and copy the current value into
    [previousValue]: value, [targetValue], [issuingCommand] and [lastCommand]
    stay as they were.  This holds in every state, so in particular while a
    command is being issued. *)
Theorem retryCommand_effects (k : ICommandKey) (d : Driver) :
  let d' := retryCommand k d in
  console d' = console d ++ [Invoked k None None; LogNotImplemented None None]
  /\ state d'
     = setMeasure (measureKey k)
         (withPreviousValue (Some (valueOf (measureKey k) d))
                            (getMeasure (state d) (measureKey k)))
         (setCommand k
            (withRetriesCounter (S (retries k d)) (getCommand (state d) k))
            (state d))
  /\ retries k d' = S (retries k d)
  /\ previousOf k d' = Some (valueOf (measureKey k) d)
  /\ (forall key, valueOf key d' = valueOf key d)
  /\ targetOf k d' = targetOf k d
  /\ issuing k d' = issuing k d
  /\ lastCommand (getCommand (state d') k) = lastCommand (getCommand (state d) k)
  /\ params d' = params d /\ timers d' = timers d
  /\ updateCycleId d' = updateCycleId d.
Proof.
  cbv zeta. split; [apply retryCommand_console|].
  split; [apply retryCommand_state|].
  unfold retries, previousOf, valueOf, targetOf, issuing.
  rewrite retryCommand_state.
  unfold retryCommand. rewrite invoke_no_arguments.
  destruct k; cbn. repeat split.
  intros []; reflexivity.
Qed.

(** ** Convergence check *)

Lemma checkCommand_not_issuing (k : ICommandKey) (d : Driver) :
  issuing k d = false ->
  checkCommand k d = log (shouldRetryCommandLog k (state d) (params d)) d.
Proof.
  unfold issuing, checkCommand, shouldRetryCommand, requestedTargetChange.
  intros H. rewrite H. cbn. rewrite H. now rewrite andb_false_r.
Qed.

Lemma withinTolerance_retryCommand (k : ICommandKey) (d : Driver) :
  withinTolerance k (state (retryCommand k d)) = withinTolerance k (state d).
Proof.
  rewrite retryCommand_state. destruct k. reflexivity.
Qed.

(** C5: after [checkCommand], [issuingCommand] is false exactly when it was
    false before or [|value - targetValue| <= 0.01 * value] held; the check
    never turns [issuingCommand] on.  The tolerance is relative to the
    current value: at [value = 0] it is [0]. *)
Theorem checkCommand_issuingCommand (k : ICommandKey) (d : Driver) :
  let v := valueOf (measureKey k) d in
  let t := num (targetOf k d) in
  (issuing k (checkCommand k d) = false <->
     issuing k d = false \/ (abs (v - t) <=? 0.01 * v) = true)
  /\ (issuing k d = false -> issuing k (checkCommand k d) = false)
  /\ (issuing k (checkCommand k d) = true -> issuing k d = true)
  /\ (v = 0 -> withinTolerance k (state d) = (abs (0 - t) <=? 0)).
Proof.
  cbv zeta.
  assert (Hiff : issuing k (checkCommand k d) = false <->
                 issuing k d = false \/ withinTolerance k (state d) = true).
  { unfold checkCommand.
    set (d0 := log _ d).
    assert (Hw : withinTolerance k
                   (state (if shouldRetryCommand k (state d) (params d)
                           then retryCommand k d0 else d0))
                 = withinTolerance k (state d)).
    { destruct (shouldRetryCommand _ _ _);
        [rewrite withinTolerance_retryCommand|]; reflexivity. }
    assert (Hi : issuing k (if shouldRetryCommand k (state d) (params d)
                            then retryCommand k d0 else d0)
                 = issuing k d).
    { destruct (shouldRetryCommand _ _ _); [|reflexivity].
      unfold issuing. rewrite retryCommand_state. destruct k. reflexivity. }
    revert Hw Hi.
    generalize (if shouldRetryCommand k (state d) (params d)
                then retryCommand k d0 else d0) as d2.
    intros d2 Hw Hi. unfold issuing in *. rewrite Hw, Hi.
    destruct (withinTolerance k (state d)),
      (issuingCommand (getCommand (state d) k)) eqn:E; cbn.
    - destruct k; cbn. tauto.
    - rewrite Hi. tauto.
    - rewrite Hi. split; [discriminate | intros [?|?]; discriminate].
    - rewrite Hi. tauto. }
  split; [exact Hiff|].
  split; [intros H; apply Hiff; now left|].
  split.
  - intros H. destruct (issuing k d) eqn:E; [reflexivity|].
    assert (issuing k (checkCommand k d) = false) by (apply Hiff; now left).
    congruence.
  - unfold withinTolerance, valueOf, targetOf. intros ->. reflexivity.
Qed.

Lemma checkCommand_iter_not_issuing (n : nat) (k : ICommandKey) (d : Driver) :
  issuing k d = false ->
  Nat.iter n (checkCommand k) d
  = mkDriver (state d) (params d) (updateCycleId d) (timers d) (nextTimerId d)
             (console d
              ++ repeat (shouldRetryCommandLog k (state d) (params d)) n).
Proof.
  intros H. induction n as [|n IH].
  - cbn. rewrite app_nil_r. now destruct d.
  - rewrite Nat.iter_succ, IH.
    rewrite checkCommand_not_issuing by exact H.
    unfold log. cbn. f_equal.
    rewrite <- app_assoc. f_equal.
    change (repeat ?x n ++ [?x]) with (repeat x n ++ repeat x 1).
    rewrite <- repeat_app. now rewrite Nat.add_1_r.
Qed.

(** C6: with [issuingCommand] false, any number of [checkCommand] calls
    never calls the command's behaviour and leaves [retriesCounter] (indeed
    the whole state) untouched; each call only prints the retry decision. *)
Theorem checkCommand_converged_idempotent (n : nat) (k : ICommandKey) (d : Driver) :
  issuing k d = false ->
  let d' := Nat.iter n (checkCommand k) d in
  retries k d' = retries k d
  /\ state d' = state d
  /\ exists evs, appended d d' evs
                 /\ forallb (fun e => negb (isInvocation e)) evs = true.
Proof.
  intros H. cbv zeta. rewrite checkCommand_iter_not_issuing by exact H.
  repeat split.
  exists (repeat (shouldRetryCommandLog k (state d) (params d)) n). split.
  - reflexivity.
  - apply forallb_forall. intros e He. apply repeat_spec in He. now subst e.
Qed.

Lemma checkCommand_converged_idempotent_witness :
  retries burnerLevelCommand
    (Nat.iter 3 (checkCommand burnerLevelCommand) (virtualDriver None)) = 0%nat.
Proof.
  exact (proj1 (checkCommand_converged_idempotent 3 burnerLevelCommand
                  (virtualDriver None) eq_refl)).
Defined.

(** ** What every operation preserves *)

Lemma Frame_refl (d : Driver) : Frame d d.
Proof.
  split; auto. exists []. split; [|reflexivity].
  unfold appended. now rewrite app_nil_r.
Qed.

Lemma Frame_trans (d1 d2 d3 : Driver) : Frame d1 d2 -> Frame d2 d3 -> Frame d1 d3.
Proof.
  intros [h1 v1 r1 (e1 & a1 & n1)] [h2 v2 r2 (e2 & a2 & n2)]. split.
  - intros key. now rewrite h2, h1.
  - intros key H. rewrite v2, v1; auto. now rewrite h1.
  - intros k. specialize (r1 k). specialize (r2 k). lia.
  - exists (e1 ++ e2). unfold appended in *. split.
    + now rewrite a2, a1, app_assoc.
    + unfold noMoveLog in *. rewrite forallb_app, n1, n2. reflexivity.
Qed.

Lemma Frame_log (e : Event) (d : Driver) :
  isMoveLog e = false -> Frame d (log e d).
Proof.
  intros H. split; auto. exists [e]. split; [reflexivity|].
  cbn. now rewrite H.
Qed.

Lemma Frame_onMeasure (k : MeasureKey) (f : IMeasure -> IMeasure) (d : Driver) :
  (forall m, hasTarget (f m) = hasTarget m) ->
  (hasTarget (getMeasure (state d) k) = true ->
   value (f (getMeasure (state d) k)) = value (getMeasure (state d) k)) ->
  Frame d (onMeasure k f d).
Proof.
  intros Hh Hv. split.
  - intros key. destruct k, key; cbn; auto.
  - intros key H. unfold valueOf. destruct k, key; cbn; auto.
  - intros [] . destruct k; cbn; auto.
  - exists []. unfold appended. cbn. now rewrite app_nil_r.
Qed.

Lemma Frame_onCommand (k : ICommandKey) (f : ICommand -> ICommand) (d : Driver) :
  (retriesCounter (getCommand (state d) k)
   <= retriesCounter (f (getCommand (state d) k)))%nat ->
  Frame d (onCommand k f d).
Proof.
  intros Hr. destruct k. split.
  - intros []; reflexivity.
  - intros [] _; reflexivity.
  - intros []. exact Hr.
  - exists []. unfold appended. cbn. now rewrite app_nil_r.
Qed.

Lemma Frame_fold {A : Type} (f : Driver -> A -> Driver) (l : list A) :
  (forall d a, Frame d (f d a)) -> forall d, Frame d (fold_left f l d).
Proof.
  intros Hf. induction l as [|a l IH]; intros d; cbn.
  - apply Frame_refl.
  - eapply Frame_trans; [apply Hf | apply IH].
Qed.

Ltac frame_step :=
  first
    [ apply Frame_log; reflexivity
    | apply Frame_onCommand; cbn; lia
    | apply Frame_onMeasure; [intros; reflexivity | intros; reflexivity] ].

Ltac frame_chain :=
  repeat (first [ apply Frame_refl
                | frame_step
                | eapply Frame_trans; [| frame_step] ]).

Lemma Frame_changeBurnerLevel (v : option string) (t : option float) (d : Driver) :
  Frame d (changeBurnerLevel v t d).
Proof.
  unfold changeBurnerLevel, changeBurnerLevelTo.
  destruct v as [w|]; [|frame_chain].
  destruct (String.eqb w "set_to"); [frame_chain|].
  destruct (String.eqb w "increase"); frame_chain.
Qed.

Lemma Frame_invoke (k : ICommandKey) (v : option string) (t : option float)
    (d : Driver) : Frame d (invoke k v t d).
Proof.
  unfold invoke. destruct (commandFn _).
  eapply Frame_trans; [|apply Frame_changeBurnerLevel]. frame_chain.
Qed.

Lemma Frame_command (k : ICommandKey) (v : string) (t : float) (d : Driver) :
  Frame d (command k v t d).
Proof.
  unfold command.
  eapply Frame_trans; [|apply Frame_invoke]. frame_chain.
Qed.

Lemma Frame_retryCommand (k : ICommandKey) (d : Driver) :
  Frame d (retryCommand k d).
Proof.
  unfold retryCommand.
  eapply Frame_trans; [|frame_step].
  eapply Frame_trans; [|frame_step].
  apply Frame_invoke.
Qed.

Lemma Frame_checkCommand (k : ICommandKey) (d : Driver) :
  Frame d (checkCommand k d).
Proof.
  unfold checkCommand.
  set (d0 := log _ d).
  assert (H0 : Frame d d0) by (subst d0; frame_chain).
  set (d1 := if shouldRetryCommand k (state d) (params d)
             then retryCommand k d0 else d0).
  assert (H1 : Frame d d1).
  { subst d1. destruct (shouldRetryCommand _ _ _); [|exact H0].
    eapply Frame_trans; [exact H0 | apply Frame_retryCommand]. }
  destruct (withinTolerance k (state d1) && _); [|exact H1].
  eapply Frame_trans; [exact H1|]. frame_chain.
Qed.

Lemma Frame_updateMeasure (draw : MeasureKey -> float) (d : Driver)
    (key : MeasureKey) : Frame d (updateMeasure draw d key).
Proof.
  unfold updateMeasure.
  destruct (hasTarget (getMeasure (state d) key)) eqn:E; cbn [negb].
  - apply Frame_refl.
  - eapply Frame_trans; [|frame_step].
    apply Frame_onMeasure; [intros; reflexivity | congruence].
Qed.

Lemma Frame_updateCommand (d : Driver) (key : ICommandKey) :
  Frame d (updateCommand d key).
Proof.
  unfold updateCommand.
  eapply Frame_trans; [apply Frame_checkCommand | frame_step].
Qed.

Lemma Frame_updateCycle (draw : MeasureKey -> float) (d : Driver) :
  Frame d (updateCycle draw d).
Proof.
  unfold updateCycle.
  eapply Frame_trans; [|apply Frame_fold, Frame_updateCommand].
  eapply Frame_trans; [|apply Frame_fold, Frame_updateMeasure].
  frame_chain.
Qed.

(** ** Connection life cycle *)

Lemma connect_rejected (r : float) (d : Driver) :
  (r <? connectionRejectionPercentage (params d) / 100.0) = true ->
  connect r d
  = if retryAllowed d
    then snd (addTimer (Timeout connectCallback 1000) (connectFailed d))
    else connectFailed d.
Proof.
  intros H. unfold connect, createConnection. cbn. rewrite H. reflexivity.
Qed.

Lemma connect_resolved (r : float) (d : Driver) :
  (r <? connectionRejectionPercentage (params d) / 100.0) = false ->
  connect r d
  = log LogSuccessfullyConnected
      (startUpdateCycle (samplingFrequency (params d))
         (onState (setConnected true)
            (onState (setFailedConnections 0)
               (log LogSucceededToCreateConnection
                  (log (LogConnecting (failedConnections (state d) + 1)) d))))).
Proof.
  intros H. unfold connect, createConnection. cbn. rewrite H. reflexivity.
Qed.

Lemma connect_measures_commands (r : float) (d : Driver) :
  measures (state (connect r d)) = measures (state d)
  /\ commands (state (connect r d)) = commands (state d).
Proof.
  destruct (r <? connectionRejectionPercentage (params d) / 100.0) eqn:E.
  - rewrite connect_rejected by exact E.
    destruct (retryAllowed d); split; reflexivity.
  - rewrite connect_resolved by exact E. split; reflexivity.
Qed.

Lemma connect_console (r : float) (d : Driver) :
  exists evs, appended d (connect r d) evs /\ noMoveLog evs = true.
Proof.
  unfold appended.
  destruct (r <? connectionRejectionPercentage (params d) / 100.0) eqn:E.
  - rewrite connect_rejected by exact E.
    exists [LogConnecting (failedConnections (state d) + 1); LogFailedToConnect].
    split; [|reflexivity].
    destruct (retryAllowed d); cbn; now rewrite <- app_assoc.
  - rewrite connect_resolved by exact E.
    exists [LogConnecting (failedConnections (state d) + 1);
            LogSucceededToCreateConnection; LogSuccessfullyConnected].
    split; [|reflexivity]. cbn. now rewrite <- !app_assoc.
Qed.

Lemma Frame_same_tables (d d' : Driver) :
  measures (state d') = measures (state d) ->
  commands (state d') = commands (state d) ->
  (exists evs, appended d d' evs /\ noMoveLog evs = true) ->
  Frame d d'.
Proof.
  intros Hm Hc He.
  assert (Hg : forall key, getMeasure (state d') key = getMeasure (state d) key)
    by (intros key; unfold getMeasure; now rewrite Hm).
  split; auto.
  - intros key. now rewrite Hg.
  - intros key _. unfold valueOf. now rewrite Hg.
  - intros []. unfold retries, getCommand. now rewrite Hc.
Qed.

Lemma Frame_connect (r : float) (d : Driver) : Frame d (connect r d).
Proof.
  destruct (connect_measures_commands r d) as [Hm Hc].
  apply Frame_same_tables; auto using connect_console.
Qed.

Lemma disconnect_unfold (d : Driver) :
  disconnect d
  = mkDriver (setConnected false (state d)) (params d) (updateCycleId d)
             (match updateCycleId d with
              | Some i => filter (fun e => negb (Nat.eqb (fst e) i)) (timers d)
              | None => timers d
              end)
             (nextTimerId d) (console d).
Proof.
  unfold disconnect, clearInterval, onState, withState. cbn.
  destruct (updateCycleId d); reflexivity.
Qed.

Lemma Frame_disconnect (d : Driver) : Frame d (disconnect d).
Proof.
  rewrite disconnect_unfold. apply Frame_same_tables; try reflexivity.
  exists []. split; [|reflexivity]. unfold appended. cbn. now rewrite app_nil_r.
Qed.

Lemma Frame_step (d : Driver) (o : Op) : Frame d (step d o).
Proof.
  destruct o; cbn.
  - apply Frame_connect.
  - apply Frame_disconnect.
  - apply Frame_command.
  - apply Frame_checkCommand.
  - apply Frame_retryCommand.
  - apply Frame_updateCycle.
  - apply Frame_same_tables; try reflexivity.
    exists []. split; [|reflexivity]. unfold appended. cbn. now rewrite app_nil_r.
Qed.

Lemma Frame_run (ops : list Op) (d : Driver) : Frame d (run ops d).
Proof.
  unfold run. apply Frame_fold, Frame_step.
Qed.

(** C8: no operation of the driver ([connect], [disconnect], [command],
    [checkCommand], [retryCommand], an update cycle) lowers a command's
    [retriesCounter], so over any run of operations the counter never
    decreases. *)
Theorem retriesCounter_monotone (k : ICommandKey) :
  (forall d o, (retries k d <= retries k (step d o))%nat)
  /\ (forall ops d, (retries k d <= retries k (run ops d))%nat).
Proof.
  split.
  - intros d o. apply (frame_retries _ _ (Frame_step d o)).
  - intros ops d. apply (frame_retries _ _ (Frame_run ops d)).
Qed.

(** C9: over every run of operations from the initial state the value of a
    measure that has a target (here [burnerLevel]) is never written: an
    update cycle only redraws measures without a target, the verb handler
    only writes [targetValue], and no operation reaches [moveBurnerLevel]
    (its console line never appears); [burnerLevel] stays at its initial 0. *)
Theorem burnerLevel_value_never_moves (existingParams : option IParams)
    (ops : list Op) :
  let d := run ops (virtualDriver existingParams) in
  valueOf burnerLevel d = 0
  /\ noMoveLog (console d) = true
  /\ (forall key, hasTarget (getMeasure (state d) key) = true -> key = burnerLevel)
  /\ (forall draw key,
        hasTarget (getMeasure (state d) key) = true ->
        valueOf key (updateCycle draw d) = valueOf key d)
  /\ (forall v t,
        state (changeBurnerLevel v t d) = state d
        \/ exists t', state (changeBurnerLevel v t d)
                      = setMeasure burnerLevel
                          (withTargetValue t' (getMeasure (state d) burnerLevel))
                          (state d)).
Proof.
  cbv zeta.
  pose proof (Frame_run ops (virtualDriver existingParams)) as [Hh Hv _ (evs & Ha & Hn)].
  repeat split.
  - now rewrite (Hv burnerLevel eq_refl).
  - unfold appended in Ha. rewrite Ha. cbn. exact Hn.
  - intros key. rewrite Hh. destruct key; cbn; congruence.
  - intros draw key H. now apply (frame_value _ _ (Frame_updateCycle draw _)).
  - intros v t. unfold changeBurnerLevel, changeBurnerLevelTo.
    destruct v as [w|]; [|now left].
    destruct (String.eqb w "set_to"); [right; eexists; reflexivity|].
    destruct (String.eqb w "increase"); [right; eexists; reflexivity|now left].
Qed.

(** What [disconnect] and a following [connect] keep: every command's
    [retriesCounter] and every measure's value are as they were (both tables
    are untouched); [disconnect()] itself only sets [connected] to false and
    clears the one interval whose id is in [updateCycleId].  Whether that is
    the whole update cycle is another matter, settled further down. *)
Theorem disconnect_then_connect_keeps_history (r : float) (d : Driver) :
  let d' := connect r (disconnect d) in
  (forall k, retries k d' = retries k d)
  /\ (forall key, valueOf key d' = valueOf key d)
  /\ measures (state d') = measures (state d)
  /\ commands (state d') = commands (state d)
  /\ state (disconnect d) = setConnected false (state d)
  /\ connected (state (disconnect d)) = false
  /\ failedConnections (state (disconnect d)) = failedConnections (state d)
  /\ params (disconnect d) = params d
  /\ console (disconnect d) = console d
  /\ updateCycleId (disconnect d) = updateCycleId d
  /\ nextTimerId (disconnect d) = nextTimerId d
  /\ timers (disconnect d) = timers (clearInterval (updateCycleId d) d)
  /\ (forall i t, updateCycleId d = Some i -> ~ In (i, t) (timers (disconnect d)))
  /\ (updateCycleId d = None -> timers (disconnect d) = timers d).
Proof.
  cbv zeta.
  destruct (connect_measures_commands r (disconnect d)) as [Hm Hc].
  assert (Hs : state (disconnect d) = setConnected false (state d))
    by (rewrite disconnect_unfold; reflexivity).
  rewrite Hs in Hm, Hc. cbn in Hm, Hc.
  repeat split; auto; try (rewrite disconnect_unfold; reflexivity).
  - intros []. unfold retries, getCommand. now rewrite Hc.
  - intros key. unfold valueOf, getMeasure. now rewrite Hm.
  - rewrite disconnect_unfold. unfold clearInterval.
    destruct (updateCycleId d); reflexivity.
  - intros i t Hi. rewrite disconnect_unfold, Hi. cbn.
    rewrite filter_In. cbn. rewrite Nat.eqb_refl. intros [_ H]. discriminate.
  - intros Hn. rewrite disconnect_unfold, Hn. reflexivity.
Qed.

(** C4: in [connect()], a draw below [rejectionPercentage] fails the
    attempt: [failedConnections] goes up by one, [connected] is false, and a
    retry of [connect] is scheduled exactly when [maxReconnectionAttempts] is
    0 or the new [failedConnections] is below it.  Otherwise the attempt
    succeeds: [failedConnections] is 0, [connected] is true and the update
    cycle is started at the sampling interval.  So at 100% every attempt
    fails and at 0% the first attempt succeeds; draws lie in [0,1). *)
Theorem connect_outcome (r : float) (d : Driver) :
  let p := connectionRejectionPercentage (params d) / 100.0 in
  let fc := failedConnections (state d) in
  let limit := maxReconnectionAttempts (params d) in
  let d' := connect r d in
  ((r <? p) = true ->
     failedConnections (state d') = S fc
     /\ connected (state d') = false
     /\ updateCycleId d' = updateCycleId d
     /\ ((limit = 0 \/ Z.of_nat (S fc) < limit)%Z ->
         timers d' = timers d ++ [(nextTimerId d, Timeout connectCallback 1000)])
     /\ (~ (limit = 0 \/ Z.of_nat (S fc) < limit)%Z -> timers d' = timers d))
  /\ ((r <? p) = false ->
      failedConnections (state d') = 0%nat
      /\ connected (state d') = true
      /\ updateCycleId d' = Some (nextTimerId d)
      /\ timers d'
         = timers d ++ [(nextTimerId d,
                         Interval updateCycleCallback (samplingFrequency (params d)))])
  /\ (connectionRejectionPercentage (params d) = 100 -> (r <? 1) = true ->
      connected (state d') = false
      /\ failedConnections (state d') = S fc)
  /\ (connectionRejectionPercentage (params d) = 0 -> (0 <=? r) = true ->
      connected (state d') = true
      /\ failedConnections (state d') = 0%nat).
Proof.
  cbv zeta.
  assert (Hrej : (r <? connectionRejectionPercentage (params d) / 100.0) = true ->
                 failedConnections (state (connect r d)) = S (failedConnections (state d))
                 /\ connected (state (connect r d)) = false).
  { intros H. rewrite connect_rejected by exact H.
    destruct (retryAllowed d); split; reflexivity. }
  assert (Hres : (r <? connectionRejectionPercentage (params d) / 100.0) = false ->
                 failedConnections (state (connect r d)) = 0%nat
                 /\ connected (state (connect r d)) = true).
  { intros H. rewrite connect_resolved by exact H. split; reflexivity. }
  split; [|split; [|split]].
  - intros H. destruct (Hrej H) as [H1 H2].
    split; [exact H1|]. split; [exact H2|].
    rewrite connect_rejected by exact H. unfold retryAllowed.
    destruct (Z.eqb_spec (maxReconnectionAttempts (params d)) 0) as [E|E];
      destruct (Z.ltb_spec (Z.of_nat (S (failedConnections (state d))))
                           (maxReconnectionAttempts (params d))) as [L|L];
      cbn [orb]; (split; [reflexivity|]); split; intros; try reflexivity;
      exfalso; intuition lia.
  - intros H. destruct (Hres H) as [H1 H2].
    split; [exact H1|]. split; [exact H2|].
    rewrite connect_resolved by exact H. split; reflexivity.
  - intros Hp Hr. rewrite and_comm. apply Hrej. rewrite Hp. exact Hr.
  - intros Hp Hr. rewrite and_comm. apply Hres. rewrite Hp.
    now apply ltb_false_of_leb.
Qed.

Lemma connect_outcome_witness :
  connected (state (connect 0.25 (virtualDriver None))) = false
  /\ failedConnections (state (connect 0.25 (virtualDriver None))) = 1%nat
  /\ timers (connect 0.25 (virtualDriver None)) = [(1%nat, Timeout connectCallback 1000)]
  /\ connected (state (connect 0.75 (virtualDriver None))) = true
  /\ updateCycleId (connect 0.75 (virtualDriver None)) = Some 1%nat.
Proof.
  destruct (connect_outcome 0.25 (virtualDriver None)) as [Hrej _].
  destruct (Hrej eq_refl) as (H1 & H2 & _ & H3 & _).
  destruct (connect_outcome 0.75 (virtualDriver None)) as (_ & Hres & _).
  destruct (Hres eq_refl) as (_ & H4 & H5 & _).
  exact (conj H2 (conj H1 (conj (H3 (or_introl eq_refl)) (conj H4 H5)))).
Defined.

(** ** Unsupported verbs *)

Lemma changeBurnerLevel_unsupported (v : string) (t : option float) (d : Driver) :
  v <> "set_to"%string -> v <> "increase"%string ->
  changeBurnerLevel (Some v) t d = log (LogNotImplemented (Some v) t) d.
Proof.
  intros H1 H2. unfold changeBurnerLevel.
  apply String.eqb_neq in H1, H2. now rewrite H1, H2.
Qed.

(** C2, as the code has it: for a verb other than ["set_to"] and
    ["increase"] the verb handler is a reported no-op (it prints the
    not-implemented line and leaves the state alone), and nothing throws;
    [command] as a whole still makes its setup writes before dispatching:
    [issuingCommand = true], [lastCommand = {v, t}], [previousValue = value],
    [targetValue = t], and nothing else. *)
Theorem command_unsupported_verb (k : ICommandKey) (v : string) (t : float)
    (d : Driver) :
  v <> "set_to"%string -> v <> "increase"%string ->
  changeBurnerLevel (Some v) (Some t) d = log (LogNotImplemented (Some v) (Some t)) d
  /\ state (changeBurnerLevel (Some v) (Some t) d) = state d
  /\ command k v t d
     = mkDriver (commandSetup k v t (state d)) (params d) (updateCycleId d)
                (timers d) (nextTimerId d)
                (console d ++ [LogIssuingCommand k v t;
                               Invoked k (Some v) (Some t);
                               LogNotImplemented (Some v) (Some t)])
  /\ issuing k (command k v t d) = true
  /\ lastCommand (getCommand (state (command k v t d)) k)
     = mkLastCommand (Some v) (Some t)
  /\ previousOf k (command k v t d) = Some (valueOf (measureKey k) d)
  /\ targetOf k (command k v t d) = Some t
  /\ retries k (command k v t d) = retries k d
  /\ (forall key, valueOf key (command k v t d) = valueOf key d)
  /\ connected (state (command k v t d)) = connected (state d)
  /\ failedConnections (state (command k v t d)) = failedConnections (state d).
Proof.
  intros H1 H2.
  pose proof (changeBurnerLevel_unsupported v (Some t)) as Hc.
  split; [now apply Hc|]. split; [now rewrite Hc|].
  assert (He : command k v t d
               = mkDriver (commandSetup k v t (state d)) (params d)
                          (updateCycleId d) (timers d) (nextTimerId d)
                          (console d ++ [LogIssuingCommand k v t;
                                         Invoked k (Some v) (Some t);
                                         LogNotImplemented (Some v) (Some t)])).
  { unfold command, invoke. destruct k.
    destruct (commandFn _). rewrite Hc by assumption.
    unfold commandSetup, log, onCommand, onMeasure, onState, withState. cbn.
    now rewrite <- !app_assoc. }
  split; [exact He|].
  unfold issuing, previousOf, targetOf, retries, valueOf. rewrite He.
  destruct k; cbn. repeat split. intros []; reflexivity.
Qed.

Lemma command_unsupported_verb_witness :
  issuing burnerLevelCommand
    (command burnerLevelCommand "decrease" 5 (virtualDriver None)) = true.
Proof.
  pose proof (command_unsupported_verb burnerLevelCommand "decrease" 5
                (virtualDriver None)) as H.
  destruct H as (_ & _ & _ & H & _); [discriminate | discriminate |].
  exact H.
Defined.

(** C2, as stated, fails: ["decrease"] is neither ["set_to"] nor
    ["increase"], yet [command("burnerLevel", "decrease", 5)] on a fresh
    driver turns [issuingCommand] on and moves [targetValue] from 0 to 5. *)
Lemma command_unsupported_verb_changes_state :
  let d := virtualDriver None in
  let d' := command burnerLevelCommand "decrease" 5 d in
  String.eqb "decrease" "set_to" = false
  /\ String.eqb "decrease" "increase" = false
  /\ issuing burnerLevelCommand d = false
  /\ issuing burnerLevelCommand d' = true
  /\ targetOf burnerLevelCommand d = Some 0
  /\ targetOf burnerLevelCommand d' = Some 5
  /\ verb (lastCommand (getCommand (state d) burnerLevelCommand)) = None
  /\ verb (lastCommand (getCommand (state d') burnerLevelCommand))
     = Some "decrease"%string.
Proof.
  cbv zeta. repeat split.
Qed.

(** ** A command that has not converged *)

Lemma fold_left_invariant {A : Type} (P : Driver -> Prop)
    (f : Driver -> A -> Driver) (l : list A) :
  (forall d a, P d -> P (f d a)) -> forall d, P d -> P (fold_left f l d).
Proof.
  intros Hf. induction l as [|a l IH]; intros d Hd; cbn; auto.
Qed.

Lemma checkCommand_unconverged (k : ICommandKey) (d : Driver) :
  withinTolerance k (state d) = false ->
  checkCommand k d
  = if shouldRetryCommand k (state d) (params d)
    then retryCommand k (log (shouldRetryCommandLog k (state d) (params d)) d)
    else log (shouldRetryCommandLog k (state d) (params d)) d.
Proof.
  intros H. unfold checkCommand.
  destruct (shouldRetryCommand k (state d) (params d)).
  - rewrite withinTolerance_retryCommand. cbn [log state]. now rewrite H.
  - cbn [log state]. now rewrite H.
Qed.

Section OutsideTolerance.

(** A value [v] and a target [t] that fail the convergence test. *)
Variables (v : float) (t : option float).
Hypothesis outside : (abs (v - num t) <=? 0.01 * v) = false.

Lemma Pending_updateMeasure (draw : MeasureKey -> float) (d : Driver)
    (key : MeasureKey) :
  Pending v t d -> Pending v t (updateMeasure draw d key).
Proof.
  intros H. unfold updateMeasure.
  destruct (hasTarget (getMeasure (state d) key)) eqn:E; cbn [negb]; [exact H|].
  unfold Pending, valueOf, targetOf, issuing in *.
  destruct H as (Hh & Hv & Ht & Hi).
  destruct key; [| |congruence]; cbn; auto.
Qed.

Lemma Pending_updateCommand (d : Driver) (key : ICommandKey) :
  Pending v t d -> Pending v t (updateCommand d key).
Proof.
  intros (Hh & Hv & Ht & Hi). destruct key.
  assert (Hw : withinTolerance burnerLevelCommand (state d) = false).
  { unfold withinTolerance, valueOf, targetOf in *. cbn [measureKey] in *.
    now rewrite Hv, Ht. }
  unfold updateCommand. rewrite checkCommand_unconverged by exact Hw.
  unfold Pending, valueOf, targetOf, issuing in *.
  destruct (shouldRetryCommand _ _ _).
  - unfold onMeasure, onState, withState. cbn [state].
    rewrite retryCommand_state. cbn. auto.
  - cbn. auto.
Qed.

(** Outside tolerance an update cycle leaves the command as it found it:
    still being issued, at the same value and target. *)
Lemma Pending_updateCycle (draw : MeasureKey -> float) (d : Driver) :
  Pending v t d -> Pending v t (updateCycle draw d).
Proof.
  intros H. unfold updateCycle.
  apply fold_left_invariant; [intros; now apply Pending_updateCommand|].
  apply fold_left_invariant; [intros; now apply Pending_updateMeasure|].
  exact H.
Qed.

Lemma Pending_updateCycles (draws : list (MeasureKey -> float)) (d : Driver) :
  Pending v t d -> Pending v t (run (map OpUpdateCycle draws) d).
Proof.
  revert d. induction draws as [|draw draws IH]; intros d H.
  - exact H.
  - cbn. apply IH. now apply Pending_updateCycle.
Qed.

End OutsideTolerance.

Lemma moveLoop_more_fuel (n m : nat) (increment endLevel : float) (d d' : Driver) :
  moveLoop n increment endLevel d = Some d' ->
  (n <= m)%nat -> moveLoop m increment endLevel d = Some d'.
Proof.
  revert m d. induction n as [|n IH]; intros m d H Hle; [discriminate|].
  destruct m as [|m]; [lia|]. cbn in *.
  destruct (moveCondition increment endLevel d); [|exact H].
  apply IH; [exact H | lia].
Qed.

(** ** The scenario [command("burnerLevel", "increase", 10)] *)

(** C1, as the code has it: from the initial state (value 0),
    [command("burnerLevel", "increase", 10)] gives [targetValue = 10] and
    [issuingCommand = true]; [moveBurnerLevel], run from there, raises the
    value in steps of 0.5 while it is below 9.5 (95% of 10) and halts at
    exactly 9.5 after 19 steps; on every later update cycle the convergence
    test fails ([|9.5 - 10| = 0.5 > 0.01 * 9.5]), so [issuingCommand] stays
    true. *)
Theorem increase_by_ten_scenario (existingParams : option IParams) :
  let k := burnerLevelCommand in
  let d0 := virtualDriver existingParams in
  let d1 := command k "increase" 10 d0 in
  let start := log (LogChangingBurnerLevelTo 10) d1 in
  let d2 := Nat.iter 19 (moveBody 0.5) start in
  valueOf burnerLevel d0 = 0
  /\ targetOf k d1 = Some 10
  /\ issuing k d1 = true
  /\ (forall fuel, (20 <= fuel)%nat -> moveBurnerLevel fuel d1 = Some d2)
  /\ map (fun n => valueOf burnerLevel (Nat.iter n (moveBody 0.5) start)) (seq 0 20)
     = [0; 0.5; 1; 1.5; 2; 2.5; 3; 3.5; 4; 4.5; 5; 5.5; 6; 6.5; 7; 7.5; 8; 8.5; 9; 9.5]
  /\ map (fun n => moveCondition 0.5 10 (Nat.iter n (moveBody 0.5) start)) (seq 0 20)
     = repeat true 19 ++ [false]
  /\ 10 * endLevelVariance = 9.5
  /\ valueOf burnerLevel d2 = 9.5
  /\ (abs (9.5 - 10) <=? 0.01 * 9.5) = false
  /\ (forall draws,
        let d3 := run (map OpUpdateCycle draws) d2 in
        issuing k d3 = true
        /\ valueOf burnerLevel d3 = 9.5
        /\ targetOf k d3 = Some 10).
Proof.
  cbv zeta. repeat split.
  - intros fuel Hf. unfold moveBurnerLevel.
    apply moveLoop_more_fuel with (n := 20%nat); [|exact Hf].
    vm_compute. reflexivity.
  - assert (Hp : Pending 9.5 (Some 10)
                   (run (map OpUpdateCycle draws)
                      (Nat.iter 19 (moveBody 0.5)
                         (log (LogChangingBurnerLevelTo 10)
                            (command burnerLevelCommand "increase" 10
                               (virtualDriver existingParams)))))).
    { apply Pending_updateCycles; [reflexivity|]. repeat split. }
    apply Hp.
  - apply (Pending_updateCycles 9.5 (Some 10) eq_refl draws). repeat split.
  - apply (Pending_updateCycles 9.5 (Some 10) eq_refl draws). repeat split.
Qed.

(** C1, as stated, fails: after [moveBurnerLevel] has halted at 9.5 the
    next update cycle finds [|9.5 - 10| = 0.5 > 0.01 * 9.5] and leaves
    [issuingCommand] true.  (Left to itself, [command] does not move the
    value at all: an update cycle right after it finds the value at 0 and
    [issuingCommand] stays true as well.) *)
Lemma increase_by_ten_not_cleared :
  let k := burnerLevelCommand in
  let d1 := command k "increase" 10 (virtualDriver None) in
  let draw := fun _ : MeasureKey => 500 in
  targetOf k d1 = Some 10
  /\ issuing k d1 = true
  /\ (exists d2,
        moveBurnerLevel 20 d1 = Some d2
        /\ valueOf burnerLevel d2 = 9.5
        /\ withinTolerance k (state d2) = false
        /\ issuing k (updateCycle draw d2) = true)
  /\ valueOf burnerLevel (updateCycle draw d1) = 0
  /\ issuing k (updateCycle draw d1) = true.
Proof.
  cbv zeta. split; [reflexivity|]. split; [reflexivity|]. split.
  - eexists. split; [vm_compute; reflexivity|]. repeat split.
  - split; reflexivity.
Qed.

(** ** NaN and reflexivity of binary64 comparisons *)

Lemma Prim2SF_inj (x y : float) : Prim2SF x = Prim2SF y -> x = y.
Proof.
  intros H. rewrite <- (SF2Prim_Prim2SF x), <- (SF2Prim_Prim2SF y).
  now rewrite H.
Qed.

Lemma sub_nan_r (x : float) : x - nan = nan.
Proof.
  apply Prim2SF_inj. rewrite sub_spec.
  change (Prim2SF nan) with S754_nan.
  destruct (Prim2SF x) as [s|s| |s m e]; try destruct s; reflexivity.
Qed.

Lemma leb_nan_l (y : float) : (nan <=? y) = false.
Proof.
  rewrite FloatAxioms.leb_spec. change (Prim2SF nan) with S754_nan. reflexivity.
Qed.

Lemma leb_nan_r (x : float) : (x <=? nan) = false.
Proof.
  rewrite FloatAxioms.leb_spec. change (Prim2SF nan) with S754_nan.
  destruct (Prim2SF x); reflexivity.
Qed.

Lemma ltb_nan_l (y : float) : (nan <? y) = false.
Proof.
  rewrite FloatAxioms.ltb_spec. change (Prim2SF nan) with S754_nan. reflexivity.
Qed.

Lemma ltb_nan_r (x : float) : (x <? nan) = false.
Proof.
  rewrite FloatAxioms.ltb_spec. change (Prim2SF nan) with S754_nan.
  destruct (Prim2SF x); reflexivity.
Qed.

(** A value that compares [<=] to anything is a number, and then it
    compares [<=] to itself. *)
Lemma leb_refl_of_leb (x y : float) : (x <=? y) = true -> (x <=? x) = true.
Proof.
  rewrite !FloatAxioms.leb_spec. unfold SFleb.
  destruct (Prim2SF x) as [s|s| |s m e]; try destruct s; cbn; try congruence;
    intros _; rewrite Z.compare_refl, Pos.compare_cont_refl; reflexivity.
Qed.

(** ** Issuing commands *)

Lemma command_state (k : ICommandKey) (v : string) (t : float) (d : Driver) :
  state (command k v t d)
  = setMeasure burnerLevel
      (withTargetValue
         (Some (if String.eqb v "increase"
                then value (getMeasure (state d) burnerLevel) + t else t))
         (getMeasure (commandSetup k v t (state d)) burnerLevel))
      (commandSetup k v t (state d)).
Proof.
  unfold command, invoke. destruct k.
  destruct (commandFn _). unfold changeBurnerLevel, changeBurnerLevelTo.
  destruct (String.eqb v "set_to") eqn:E1.
  - apply String.eqb_eq in E1. subst v. reflexivity.
  - destruct (String.eqb v "increase"); reflexivity.
Qed.

Lemma command_host (k : ICommandKey) (v : string) (t : float) (d : Driver) :
  params (command k v t d) = params d
  /\ timers (command k v t d) = timers d
  /\ updateCycleId (command k v t d) = updateCycleId d
  /\ nextTimerId (command k v t d) = nextTimerId d.
Proof.
  unfold command, invoke. destruct (commandFn _).
  unfold changeBurnerLevel, changeBurnerLevelTo.
  destruct (String.eqb v "set_to"); [repeat split|].
  destruct (String.eqb v "increase"); repeat split.
Qed.

(** X1: whatever the verb, [command] turns [issuingCommand] on, records
    the verb and target in [lastCommand], copies the value into
    [previousValue], and sets [targetValue] to [value + target] for
    ["increase"] and to [target] for every other verb, with no regard for
    [min], [max] or [supportedVerbs]; it leaves every value, the retry
    counter, the connection fields, the parameters and the timers alone. *)
Theorem command_effects (k : ICommandKey) (v : string) (t : float) (d : Driver) :
  let d' := command k v t d in
  issuing k d' = true
  /\ lastCommand (getCommand (state d') k) = mkLastCommand (Some v) (Some t)
  /\ previousOf k d' = Some (valueOf (measureKey k) d)
  /\ targetOf k d'
     = Some (if String.eqb v "increase" then valueOf (measureKey k) d + t else t)
  /\ (forall key, valueOf key d' = valueOf key d)
  /\ retries k d' = retries k d
  /\ shape (state d') = shape (state d)
  /\ connected (state d') = connected (state d)
  /\ failedConnections (state d') = failedConnections (state d)
  /\ params d' = params d
  /\ timers d' = timers d
  /\ updateCycleId d' = updateCycleId d.
Proof.
  cbv zeta.
  destruct (command_host k v t d) as (Hp & Ht & Hu & _).
  unfold issuing, previousOf, targetOf, valueOf, retries.
  rewrite command_state. destruct k. cbn.
  repeat split; auto. intros []; reflexivity.
Qed.

(** X2: the last command wins: issuing a command right after another
    leaves the state the second command alone would have left; nothing of
    the first survives, and ["increase"] counts from the value, not from
    the target requested before. *)
Theorem command_last_wins (k : ICommandKey) (v v' : string) (t t' : float)
    (d : Driver) :
  state (command k v t (command k v' t' d)) = state (command k v t d).
Proof.
  rewrite (command_state k v t (command k v' t' d)).
  rewrite (command_state k v t d).
  rewrite (command_state k v' t' d).
  destruct k. reflexivity.
Qed.

(** X3: on a driver that started fresh, whatever has happened since,
    pressing "+ 10" asks for the target 10: the presses do not add up,
    since no operation ever moves the burner level's value away from 0. *)
Theorem handleIncrementByTen_target (existingParams : option IParams)
    (ops : list Op) :
  let d := handleIncrementByTen (run ops (virtualDriver existingParams)) in
  targetOf burnerLevelCommand d = Some 10
  /\ valueOf burnerLevel d = 0
  /\ issuing burnerLevelCommand d = true.
Proof.
  cbv zeta. unfold handleIncrementByTen.
  pose proof (frame_value _ _ (Frame_run ops (virtualDriver existingParams))
                burnerLevel eq_refl) as Hv.
  unfold targetOf, valueOf, issuing in *. rewrite command_state.
  set (d0 := run ops _) in *. clearbody d0.
  destruct d0 as [[[[mb ma ml] mn] cs cn fc] p u ti n co]. cbn in *.
  rewrite Hv. repeat split.
Qed.

(** ** The stepping routine *)

Lemma setBurnerValue_same (s : IState) :
  setBurnerValue (value (getMeasure s burnerLevel)) s = s.
Proof.
  destruct s as [[[mb ma [v ty h tv pv]] mn] cs cn fc]. reflexivity.
Qed.

Lemma setBurnerValue_twice (x y : float) (s : IState) :
  setBurnerValue x (setBurnerValue y s) = setBurnerValue x s.
Proof. reflexivity. Qed.

Lemma moveBody_state (increment : float) (d : Driver) :
  state (moveBody increment d)
  = setBurnerValue (value (getMeasure (state d) burnerLevel) + increment)
                   (state d).
Proof. reflexivity. Qed.

(** When the loop ends, its condition is false, and all it has written is
    the burner level's value. *)
Lemma moveLoop_result (fuel : nat) (increment endLevel : float) (d d' : Driver) :
  moveLoop fuel increment endLevel d = Some d' ->
  moveCondition increment endLevel d' = false
  /\ state d' = setBurnerValue (value (getMeasure (state d') burnerLevel)) (state d)
  /\ params d' = params d
  /\ updateCycleId d' = updateCycleId d
  /\ timers d' = timers d
  /\ nextTimerId d' = nextTimerId d
  /\ console d' = console d.
Proof.
  revert d. induction fuel as [|n IH]; intros d H; [discriminate|].
  cbn in H. destruct (moveCondition increment endLevel d) eqn:E.
  - destruct (IH _ H) as (Hc & Hs & Hp & Hu & Ht & Hn & Hl).
    split; [exact Hc|]. split.
    + rewrite Hs at 1. rewrite moveBody_state. apply setBurnerValue_twice.
    + auto.
  - injection H as <-. split; [exact E|]. split; auto.
    symmetry. apply setBurnerValue_same.
Qed.

(** X4: when [moveBurnerLevel] returns, the value has left the range the
    loop runs in: going up it is no longer below 95% of the target, going
    down no longer above it.  The routine has written nothing but the
    burner level's value and printed one line. *)
Theorem moveBurnerLevel_result (fuel : nat) (d d' : Driver) :
  moveBurnerLevel fuel d = Some d' ->
  let endLevel := num (targetOf burnerLevelCommand d) in
  let rising := valueOf burnerLevel d <? endLevel in
  (if rising
   then valueOf burnerLevel d' <? endLevel * endLevelVariance
   else endLevel * endLevelVariance <? valueOf burnerLevel d') = false
  /\ state d' = setBurnerValue (valueOf burnerLevel d') (state d)
  /\ console d' = console d ++ [LogChangingBurnerLevelTo endLevel]
  /\ params d' = params d
  /\ timers d' = timers d
  /\ updateCycleId d' = updateCycleId d.
Proof.
  unfold moveBurnerLevel. intros H. cbv zeta.
  apply moveLoop_result in H.
  destruct H as (Hc & Hs & Hp & Hu & Ht & _ & Hl).
  unfold valueOf, targetOf. cbn [measureKey].
  split; [|auto].
  unfold moveCondition in Hc. cbn [log state] in Hc.
  destruct (value (getMeasure (state d) burnerLevel)
            <? num (targetValue (getMeasure (state d) burnerLevel))).
  - change (0 <? 0.5) with true in Hc. change (0.5 <? 0) with false in Hc.
    cbn in Hc. now rewrite orb_false_r in Hc.
  - change (0 <? -0.5) with false in Hc. change (-0.5 <? 0) with true in Hc.
    exact Hc.
Qed.

Lemma moveBurnerLevel_result_witness :
  let d := command burnerLevelCommand "increase" 10 (virtualDriver None) in
  let d' := Nat.iter 19 (moveBody 0.5) (log (LogChangingBurnerLevelTo 10) d) in
  (valueOf burnerLevel d' <? 10 * endLevelVariance) = false
  /\ valueOf burnerLevel d' = 9.5.
Proof.
  intros d d'.
  assert (H : moveBurnerLevel 20 d = Some d') by (vm_compute; reflexivity).
  destruct (moveBurnerLevel_result 20 d d' H) as [Hout _].
  split; [|vm_compute; reflexivity].
  vm_compute in Hout. vm_compute. exact Hout.
Defined.

Lemma moveLoop_step (n : nat) (increment endLevel : float) (d : Driver) :
  moveLoop (S n) increment endLevel d
  = if moveCondition increment endLevel d
    then moveLoop n increment endLevel (moveBody increment d)
    else Some d.
Proof. reflexivity. Qed.

Lemma moveBody_fixed (increment : float) (d : Driver) :
  value (getMeasure (state d) burnerLevel) + increment
  = value (getMeasure (state d) burnerLevel) ->
  moveBody increment d = d.
Proof.
  destruct d as [[[[mb ma [v ty h tv pv]] mn] cs cn fc] p u ti n co]. cbn.
  intros H. unfold moveBody, onMeasure, onState, withState. cbn.
  now rewrite H.
Qed.

(** X5: the loop of [moveBurnerLevel] need not end: from a value that is
    below 95% of the target and so large that adding 0.5 rounds back to it,
    no number of steps suffices. *)
Theorem moveBurnerLevel_absorbed (d : Driver) :
  let v := valueOf burnerLevel d in
  let endLevel := num (targetOf burnerLevelCommand d) in
  (v <? endLevel) = true ->
  (v <? endLevel * endLevelVariance) = true ->
  v + 0.5 = v ->
  forall fuel, moveBurnerLevel fuel d = None.
Proof.
  cbv zeta. unfold valueOf, targetOf. cbn [measureKey].
  intros Hlt Hband Habs fuel. unfold moveBurnerLevel. rewrite Hlt.
  set (d0 := log _ d).
  assert (Hfix : moveBody 0.5 d0 = d0).
  { apply moveBody_fixed. exact Habs. }
  assert (Hcond : moveCondition 0.5
                    (num (targetValue (getMeasure (state d) burnerLevel))) d0 = true).
  { unfold moveCondition, d0. cbn [log state]. now rewrite Hband. }
  induction fuel as [|n IH]; [reflexivity|].
  rewrite moveLoop_step, Hcond, Hfix. exact IH.
Qed.

Lemma moveBurnerLevel_absorbed_witness :
  moveBurnerLevel 1000
    (onMeasure burnerLevel (withValue 9007199254740992)
       (command burnerLevelCommand "set_to" 100000000000000000 (virtualDriver None)))
  = None.
Proof.
  apply (moveBurnerLevel_absorbed
           (onMeasure burnerLevel (withValue 9007199254740992)
              (command burnerLevelCommand "set_to" 100000000000000000
                 (virtualDriver None))));
    reflexivity.
Defined.

(** X6: with a target that is [undefined] or NaN, [moveBurnerLevel]
    prints its line and returns at once: it writes nothing to the state. *)
Theorem moveBurnerLevel_nan_target (fuel : nat) (d : Driver) :
  num (targetOf burnerLevelCommand d) = nan ->
  moveBurnerLevel (S fuel) d = Some (log (LogChangingBurnerLevelTo nan) d).
Proof.
  unfold targetOf, moveBurnerLevel. cbn [measureKey]. intros ->.
  rewrite ltb_nan_r, moveLoop_step. unfold moveCondition.
  change (nan * endLevelVariance) with nan.
  rewrite ltb_nan_l, andb_false_r. reflexivity.
Qed.

Lemma moveBurnerLevel_nan_target_witness :
  moveBurnerLevel 1 (command burnerLevelCommand "set_to" nan (virtualDriver None))
  = Some (log (LogChangingBurnerLevelTo nan)
            (command burnerLevelCommand "set_to" nan (virtualDriver None))).
Proof.
  apply (moveBurnerLevel_nan_target 0
           (command burnerLevelCommand "set_to" nan (virtualDriver None))).
  reflexivity.
Defined.

(** ** The convergence check, case by case *)

(** The test and the issuing flag that [checkCommand] reads after a
    possible retry are those of the state it started from. *)
Lemma checkCommand_cases (k : ICommandKey) (d : Driver) :
  checkCommand k d
  = let d0 := log (shouldRetryCommandLog k (state d) (params d)) d in
    let d1 := if shouldRetryCommand k (state d) (params d)
              then retryCommand k d0 else d0 in
    if withinTolerance k (state d) && issuing k d
    then onCommand k (withIssuingCommand false) (log LogStopCommand d1)
    else d1.
Proof.
  unfold checkCommand, issuing. cbv zeta.
  destruct (shouldRetryCommand k (state d) (params d)).
  - rewrite withinTolerance_retryCommand, retryCommand_state.
    destruct k. reflexivity.
  - reflexivity.
Qed.

Lemma checkCommand_no_retry (k : ICommandKey) (d : Driver) :
  shouldRetryCommand k (state d) (params d) = false ->
  withinTolerance k (state d) = false ->
  checkCommand k d = log (shouldRetryCommandLog k (state d) (params d)) d.
Proof.
  intros Hs Hw. rewrite checkCommand_cases. cbv zeta. now rewrite Hs, Hw.
Qed.

Lemma checkCommand_retries (k : ICommandKey) (d : Driver) :
  retries k (checkCommand k d)
  = if shouldRetryCommand k (state d) (params d)
    then S (retries k d) else retries k d.
Proof.
  rewrite checkCommand_cases. cbv zeta. unfold retries, issuing.
  destruct (shouldRetryCommand k (state d) (params d));
    destruct (withinTolerance k (state d) && _);
    unfold onCommand, onState, withState, log; cbn [state];
    rewrite ?retryCommand_state; destruct k; reflexivity.
Qed.

Lemma checkCommand_params (k : ICommandKey) (d : Driver) :
  params (checkCommand k d) = params d.
Proof.
  rewrite checkCommand_cases. cbv zeta.
  assert (Hr : forall d0, params (retryCommand k d0) = params d0).
  { intros d0. unfold retryCommand. rewrite invoke_no_arguments. reflexivity. }
  destruct (shouldRetryCommand k (state d) (params d));
    destruct (withinTolerance k (state d) && _);
    unfold onCommand, onState, withState, log; cbn [params];
    rewrite ?Hr; reflexivity.
Qed.

Lemma updateCycle_keeps (P : Driver -> Prop) (draw : MeasureKey -> float) :
  Keeps P (log LogUpdatingMeasures) ->
  (forall key, Keeps P (fun d => updateMeasure draw d key)) ->
  (forall k, Keeps P (fun d => updateCommand d k)) ->
  Keeps P (updateCycle draw).
Proof.
  intros Hl Hm Hc d H. unfold updateCycle.
  apply fold_left_invariant; [intros d0 k; apply (Hc k)|].
  apply fold_left_invariant; [intros d0 key; apply (Hm key)|].
  now apply Hl.
Qed.

Lemma updateMeasure_commands_params (draw : MeasureKey -> float) (d : Driver)
    (key : MeasureKey) :
  commands (state (updateMeasure draw d key)) = commands (state d)
  /\ params (updateMeasure draw d key) = params d.
Proof.
  unfold updateMeasure. destruct (negb _); split; reflexivity.
Qed.

Lemma updateCommand_retries (d : Driver) (k : ICommandKey) :
  retries k (updateCommand d k) = retries k (checkCommand k d)
  /\ params (updateCommand d k) = params d.
Proof.
  unfold updateCommand. split.
  - destruct k. reflexivity.
  - cbn. apply checkCommand_params.
Qed.

(** ** Invariants of runs *)

Lemma connect_view (r : float) (d : Driver) : view (connect r d) = view d.
Proof.
  unfold view. destruct (connect_measures_commands r d) as [-> ->].
  f_equal.
  destruct (r <? connectionRejectionPercentage (params d) / 100.0) eqn:E.
  - rewrite connect_rejected by exact E. destruct (retryAllowed d); reflexivity.
  - rewrite connect_resolved by exact E. reflexivity.
Qed.

Lemma disconnect_view (d : Driver) : view (disconnect d) = view d.
Proof. rewrite disconnect_unfold. reflexivity. Qed.

Lemma view_projections (d d' : Driver) :
  view d' = view d ->
  (forall key, getMeasure (state d') key = getMeasure (state d) key)
  /\ (forall k, getCommand (state d') k = getCommand (state d) k)
  /\ commandsByName (commands (state d')) = commandsByName (commands (state d))
  /\ params d' = params d.
Proof.
  unfold view. intros H. injection H as Hm Hc Hp.
  unfold getMeasure, getCommand. rewrite Hm, Hc, Hp. repeat split.
Qed.

(** A property of the view is kept by every operation that is kept by
    [command], [checkCommand], [retryCommand], the update cycle and a write
    to the parameters, as far as the run contains them. *)
Lemma run_keeps (P : Driver -> Prop) (allowed : Op -> bool) :
  (forall d d', view d' = view d -> P d -> P d') ->
  (forall o, allowed o = true ->
             match o with
             | OpConnect _ | OpDisconnect => True
             | _ => Keeps P (fun d => step d o)
             end) ->
  forall ops, forallb allowed ops = true -> Keeps P (run ops).
Proof.
  intros Hview Hop ops. induction ops as [|o ops IH]; intros Hall d H.
  - exact H.
  - cbn in Hall. apply andb_prop in Hall as [Ho Hall].
    cbn. apply IH; [exact Hall|].
    specialize (Hop o Ho). destruct o; try (now apply Hop).
    + cbn. apply (Hview d); [apply connect_view | exact H].
    + cbn. apply (Hview d); [apply disconnect_view | exact H].
Qed.

Lemma shouldRetryCommand_exhausted (k : ICommandKey) (s : IState) (p : IParams) :
  commandRetryLimited p = true ->
  (maxNumberOfRetries p < Z.of_nat (retriesCounter (getCommand s k)))%Z ->
  shouldRetryCommand k s p = false.
Proof.
  intros Hl Hm. unfold shouldRetryCommand, canRetryCommand. rewrite Hl.
  apply Z.leb_gt in Hm. rewrite Hm. cbn. apply andb_false_r.
Qed.

Section ExhaustedBudget.

(** Parameters that limit retries, and a counter beyond the limit. *)
Variables (p : IParams) (r : nat).
Hypothesis limited : commandRetryLimited p = true.
Hypothesis beyond : (maxNumberOfRetries p < Z.of_nat r)%Z.

Lemma Exhausted_checkCommand (k : ICommandKey) :
  Keeps (Exhausted p r) (checkCommand k).
Proof.
  intros d [Hp Hr]. destruct k. split.
  - now rewrite checkCommand_params.
  - rewrite checkCommand_retries, Hp.
    rewrite shouldRetryCommand_exhausted; auto.
    unfold retries in Hr. now rewrite Hr.
Qed.

Lemma Exhausted_updateCycle (draw : MeasureKey -> float) :
  Keeps (Exhausted p r) (updateCycle draw).
Proof.
  apply updateCycle_keeps.
  - intros d H. exact H.
  - intros key d [Hp Hr].
    destruct (updateMeasure_commands_params draw d key) as [Hc Hp'].
    split; [congruence|]. unfold retries, getCommand in *. now rewrite Hc.
  - intros k d H. apply (Exhausted_checkCommand k) in H.
    destruct H as [Hp Hr]. destruct (updateCommand_retries d k) as [Hr' Hp'].
    destruct k. split.
    + rewrite Hp'. rewrite checkCommand_params in Hp. exact Hp.
    + now rewrite Hr'.
Qed.

Lemma Exhausted_run (ops : list Op) :
  forallb isPolicedOp ops = true -> Keeps (Exhausted p r) (run ops).
Proof.
  apply run_keeps.
  - intros d d' Hv [Hp Hr].
    destruct (view_projections d d' Hv) as (_ & Hc & _ & Hp').
    split; [congruence|]. unfold retries. now rewrite Hc.
  - intros o Ho. destruct o; try exact I; try discriminate.
    + intros d [Hp Hr]. cbn. destruct (command_host control v t d) as (Hp' & _).
      split; [congruence|]. unfold retries. rewrite command_state.
      destruct control. exact Hr.
    + apply Exhausted_checkCommand.
    + apply Exhausted_updateCycle.
Qed.

End ExhaustedBudget.

(** X7: the retry budget belongs to the driver, not to a command: once
    [retriesCounter] has passed [maxNumberOfRetries] under limited retries,
    no [connect], [disconnect], [command], [checkCommand] or update cycle
    ever retries again, and a new command does not restore the budget. *)
Theorem retry_budget_never_restored (ops : list Op) (d : Driver) :
  commandRetryLimited (params d) = true ->
  (maxNumberOfRetries (params d) < Z.of_nat (retries burnerLevelCommand d))%Z ->
  forallb isPolicedOp ops = true ->
  retries burnerLevelCommand (run ops d) = retries burnerLevelCommand d
  /\ params (run ops d) = params d.
Proof.
  intros Hl Hm Hops.
  destruct (Exhausted_run (params d) (retries burnerLevelCommand d) Hl Hm ops Hops d)
    as [Hp Hr]; [split; reflexivity|].
  split; assumption.
Qed.

Lemma retry_budget_never_restored_witness :
  retries burnerLevelCommand
    (run [OpCommand burnerLevelCommand "set_to" 50;
          OpUpdateCycle (fun _ => 1); OpUpdateCycle (fun _ => 2)]
       (run (repeat (OpUpdateCycle (fun _ => 0)) 12)
          (command burnerLevelCommand "increase" 10 (virtualDriver None))))
  = 11%nat.
Proof.
  pose proof (retry_budget_never_restored
                [OpCommand burnerLevelCommand "set_to" 50;
                 OpUpdateCycle (fun _ => 1); OpUpdateCycle (fun _ => 2)]
                (run (repeat (OpUpdateCycle (fun _ => 0)) 12)
                   (command burnerLevelCommand "increase" 10 (virtualDriver None))))
    as H.
  destruct H as [H _]; [reflexivity | reflexivity | reflexivity |].
  vm_compute in H. vm_compute. exact H.
Defined.

(** ** A command that makes no progress *)

Lemma nextRetries_iter (p : IParams) (r n : nat) :
  Nat.iter n (nextRetries p) r
  = if commandRetryLimited p
    then if (Z.of_nat r <=? maxNumberOfRetries p)%Z
         then Nat.min (r + n) (Z.to_nat (maxNumberOfRetries p) + 1)
         else r
    else (r + n)%nat.
Proof.
  induction n as [|n IH].
  - cbn. destruct (commandRetryLimited p); [|lia].
    destruct (Z.leb_spec (Z.of_nat r) (maxNumberOfRetries p)); lia.
  - rewrite Nat.iter_succ, IH. unfold nextRetries.
    destruct (commandRetryLimited p); cbn [andb orb negb]; [|lia].
    rewrite orb_false_r.
    destruct (Z.leb_spec (Z.of_nat r) (maxNumberOfRetries p)) as [Hr|Hr].
    + destruct (Z.leb_spec
                  (Z.of_nat (Nat.min (r + n) (Z.to_nat (maxNumberOfRetries p) + 1)))
                  (maxNumberOfRetries p)); lia.
    + destruct (Z.leb_spec (Z.of_nat r) (maxNumberOfRetries p)); lia.
Qed.

Section NoProgress.

(** A value and a target that fail the convergence test while their
    distance is a number. *)
Variables (v : float) (t : option float) (p : IParams).
Hypothesis outside : (abs (v - num t) <=? 0.01 * v) = false.
Hypothesis comparable : (abs (v - num t) <=? abs (v - num t)) = true.

Lemma Stalled_updateMeasure (draw : MeasureKey -> float) (r : nat)
    (key : MeasureKey) :
  Keeps (Stalled v t r p) (fun d => updateMeasure draw d key).
Proof.
  intros d (HP & Hprev & Hr & Hn & Hp).
  destruct (updateMeasure_commands_params draw d key) as [Hc Hp'].
  split; [now apply Pending_updateMeasure|].
  split.
  - destruct HP as (Hh & _). unfold updateMeasure, previousOf in *.
    destruct (hasTarget (getMeasure (state d) key)) eqn:E; cbn [negb]; [exact Hprev|].
    destruct key; [| |congruence]; exact Hprev.
  - unfold retries, getCommand in *. rewrite Hc. repeat split; congruence.
Qed.

Lemma Stalled_updateCommand (r : nat) (d : Driver) (k : ICommandKey) :
  Stalled v t r p d -> Stalled v t (nextRetries p r) p (updateCommand d k).
Proof.
  intros ((Hh & Hv & Ht & Hi) & Hprev & Hr & Hn & Hp). destruct k.
  unfold valueOf, targetOf, previousOf, issuing, retries in *.
  cbn [measureKey] in *.
  assert (Hw : withinTolerance burnerLevelCommand (state d) = false).
  { unfold withinTolerance. cbn [measureKey]. now rewrite Hv, Ht. }
  assert (Hs : shouldRetryCommand burnerLevelCommand (state d) (params d)
               = (commandRetryLimited p
                  && (Z.of_nat r <=? maxNumberOfRetries p)%Z)
                 || negb (commandRetryLimited p)).
  { unfold shouldRetryCommand, requestedTargetChange, progressionNotObserved,
      currentDistance, previousDistance, canRetryCommand.
    cbn [measureKey]. rewrite Hi, Hv, Ht, Hprev, Hr, Hp. cbn [num].
    now rewrite comparable. }
  unfold updateCommand. rewrite checkCommand_cases. cbv zeta.
  rewrite Hw, Hs. cbn [andb]. unfold nextRetries.
  unfold Stalled, Pending, valueOf, targetOf, previousOf, issuing, retries.
  destruct ((commandRetryLimited p && (Z.of_nat r <=? maxNumberOfRetries p)%Z)
            || negb (commandRetryLimited p)).
  - unfold onMeasure, onState, withState. cbn [state params].
    rewrite retryCommand_state. cbn.
    unfold retryCommand. rewrite invoke_no_arguments.
    unfold getMeasure, getCommand in *. cbn in *.
    repeat split; auto; congruence.
  - unfold getMeasure, getCommand in *. cbn in *.
    repeat split; auto; congruence.
Qed.

Lemma Stalled_updateCycle (draw : MeasureKey -> float) (r : nat) (d : Driver) :
  Stalled v t r p d -> Stalled v t (nextRetries p r) p (updateCycle draw d).
Proof.
  intros H. unfold updateCycle.
  set (d1 := fold_left (updateMeasure draw) _ _).
  assert (H1 : Stalled v t r p d1).
  { apply fold_left_invariant; [intros d0 key; apply Stalled_updateMeasure|].
    exact H. }
  destruct H1 as (HP & Hprev & Hr & Hn & Hp) eqn:E. rewrite Hn. cbn [fold_left].
  apply Stalled_updateCommand. repeat split; try apply HP; assumption.
Qed.

Lemma Stalled_updateCycles (draws : list (MeasureKey -> float)) (r : nat)
    (d : Driver) :
  Stalled v t r p d ->
  Stalled v t (Nat.iter (List.length draws) (nextRetries p) r) p
          (run (map OpUpdateCycle draws) d).
Proof.
  revert r d. induction draws as [|draw draws IH]; intros r d H; [exact H|].
  cbn [map run fold_left step List.length]. rewrite Nat.iter_succ_r.
  apply (IH (nextRetries p r)). now apply Stalled_updateCycle.
Qed.

End NoProgress.

(** X8: a command that is being issued while the value stands still
    outside the tolerance is retried once per update cycle until
    [retriesCounter] has passed [maxNumberOfRetries], that is
    [maxNumberOfRetries + 1] times from a counter at 0, and then no more;
    without the limit it is retried on every cycle.  [issuingCommand] stays
    true throughout. *)
Theorem stalled_command_retries (draws : list (MeasureKey -> float)) (d : Driver) :
  let k := burnerLevelCommand in
  let v := valueOf burnerLevel d in
  let t := targetOf k d in
  let r := retries k d in
  let n := List.length draws in
  let limit := maxNumberOfRetries (params d) in
  hasTarget (getMeasure (state d) burnerLevel) = true ->
  issuing k d = true ->
  previousOf k d = Some v ->
  commandsByName (commands (state d)) = [k] ->
  (abs (v - num t) <=? 0.01 * v) = false ->
  (abs (v - num t) <=? abs (v - num t)) = true ->
  let d' := run (map OpUpdateCycle draws) d in
  issuing k d' = true
  /\ valueOf burnerLevel d' = v
  /\ retries k d'
     = if commandRetryLimited (params d)
       then if (Z.of_nat r <=? limit)%Z
            then Nat.min (r + n) (Z.to_nat limit + 1)
            else r
       else (r + n)%nat.
Proof.
  cbv zeta. intros Hh Hi Hprev Hn Hout Hcmp.
  pose proof (Stalled_updateCycles _ _ (params d) Hout Hcmp draws
                (retries burnerLevelCommand d) d) as H.
  destruct H as ((_ & Hv & _ & Hi') & _ & Hr & _).
  { repeat split; assumption. }
  rewrite nextRetries_iter in Hr. repeat split; assumption.
Qed.

Lemma stalled_command_retries_witness :
  retries burnerLevelCommand
    (run (map OpUpdateCycle (repeat (fun _ => 7) 20))
       (command burnerLevelCommand "increase" 10 (virtualDriver None)))
  = 11%nat.
Proof.
  pose proof (stalled_command_retries (repeat (fun _ => 7) 20)
                (command burnerLevelCommand "increase" 10 (virtualDriver None)))
    as H.
  cbv zeta in H.
  destruct H as (_ & _ & H);
    [reflexivity | reflexivity | reflexivity | reflexivity | reflexivity
    | reflexivity |].
  vm_compute in H. vm_compute. exact H.
Defined.

(** ** Pending until the next command *)

Section StillOutside.

Variables (v : float) (t : option float).
Hypothesis outside : (abs (v - num t) <=? 0.01 * v) = false.

Lemma Pending_withinTolerance (d : Driver) :
  Pending v t d -> withinTolerance burnerLevelCommand (state d) = false.
Proof.
  intros (_ & Hv & Ht & _). unfold withinTolerance, valueOf, targetOf in *.
  cbn [measureKey] in *. now rewrite Hv, Ht.
Qed.

Lemma Pending_retryCommand (k : ICommandKey) : Keeps (Pending v t) (retryCommand k).
Proof.
  intros d (Hh & Hv & Ht & Hi). destruct k.
  unfold Pending, valueOf, targetOf, issuing in *.
  rewrite retryCommand_state. cbn. auto.
Qed.

Lemma Pending_checkCommand (k : ICommandKey) : Keeps (Pending v t) (checkCommand k).
Proof.
  intros d H. destruct k. rewrite checkCommand_cases. cbv zeta.
  rewrite (Pending_withinTolerance d H). cbn [andb].
  destruct (shouldRetryCommand _ _ _); [apply Pending_retryCommand|]; exact H.
Qed.

Lemma Pending_run (ops : list Op) :
  forallb (fun o => negb (isCommandOp o)) ops = true -> Keeps (Pending v t) (run ops).
Proof.
  apply run_keeps.
  - intros d d' Hv (Hh & Hval & Ht & Hi).
    destruct (view_projections d d' Hv) as (Hm & Hc & _).
    unfold Pending, valueOf, targetOf, issuing. rewrite !Hm, Hc. auto.
  - intros o Ho. destruct o; try exact I; try discriminate.
    + apply Pending_checkCommand.
    + apply Pending_retryCommand.
    + intros d H. now apply Pending_updateCycle.
    + intros d H. exact H.
Qed.

End StillOutside.

(** X9: nothing but a new command ends a command whose value is outside
    the tolerance of its target: over every run of [connect], [disconnect],
    [checkCommand], [retryCommand], update cycles and parameter changes,
    [issuingCommand] stays true and value and target stay where they are. *)
Theorem pending_until_next_command (ops : list Op) (d : Driver) :
  let k := burnerLevelCommand in
  let v := valueOf burnerLevel d in
  let t := targetOf k d in
  hasTarget (getMeasure (state d) burnerLevel) = true ->
  issuing k d = true ->
  (abs (v - num t) <=? 0.01 * v) = false ->
  forallb (fun o => negb (isCommandOp o)) ops = true ->
  issuing k (run ops d) = true
  /\ valueOf burnerLevel (run ops d) = v
  /\ targetOf k (run ops d) = t.
Proof.
  cbv zeta. intros Hh Hi Hout Hops.
  destruct (Pending_run _ _ Hout ops Hops d) as (_ & Hv & Ht & Hi').
  { repeat split; assumption. }
  repeat split; assumption.
Qed.

Lemma pending_until_next_command_witness :
  issuing burnerLevelCommand
    (run [OpUpdateCycle (fun _ => 3); OpConnect 0.9; OpDisconnect;
          OpRetryCommand burnerLevelCommand; OpUpdateCycle (fun _ => 4)]
       (command burnerLevelCommand "set_to" 40 (virtualDriver None)))
  = true.
Proof.
  pose proof (pending_until_next_command
                [OpUpdateCycle (fun _ => 3); OpConnect 0.9; OpDisconnect;
                 OpRetryCommand burnerLevelCommand; OpUpdateCycle (fun _ => 4)]
                (command burnerLevelCommand "set_to" 40 (virtualDriver None)))
    as H.
  cbv zeta in H.
  destruct H as (H & _); [reflexivity | reflexivity | reflexivity | reflexivity |].
  exact H.
Defined.

(** ** A target that is not a number *)

Section NanTarget.

Variables (t : option float) (r : nat).
Hypothesis not_a_number : num t = nan.

Lemma Wedged_checkCommand (k : ICommandKey) (d : Driver) :
  Wedged t r d ->
  checkCommand k d = log (shouldRetryCommandLog k (state d) (params d)) d.
Proof.
  intros (Hi & Ht & Hr). destruct k. unfold targetOf in Ht. cbn [measureKey] in Ht.
  apply checkCommand_no_retry.
  - unfold shouldRetryCommand, progressionNotObserved, currentDistance,
      previousDistance. cbn [measureKey]. rewrite Ht, not_a_number.
    rewrite !sub_nan_r. change (abs nan) with nan. rewrite leb_nan_l.
    cbn. now rewrite andb_false_r.
  - unfold withinTolerance. cbn [measureKey]. rewrite Ht, not_a_number.
    rewrite sub_nan_r. change (abs nan) with nan. apply leb_nan_l.
Qed.

Lemma Wedged_updateCycle (draw : MeasureKey -> float) :
  Keeps (Wedged t r) (updateCycle draw).
Proof.
  apply updateCycle_keeps.
  - intros d H. exact H.
  - intros key d (Hi & Ht & Hr). unfold updateMeasure.
    destruct (negb _); [|repeat split; assumption].
    unfold Wedged, issuing, targetOf, retries in *.
    destruct key; cbn; auto.
  - intros k d H. unfold updateCommand. rewrite (Wedged_checkCommand k d H).
    destruct H as (Hi & Ht & Hr). destruct k.
    unfold Wedged, issuing, targetOf, retries in *. cbn. auto.
Qed.

Lemma Wedged_run (ops : list Op) :
  forallb (fun o => negb (isCommandOp o || isRetryOp o)) ops = true ->
  Keeps (Wedged t r) (run ops).
Proof.
  apply run_keeps.
  - intros d d' Hv (Hi & Ht & Hr).
    destruct (view_projections d d' Hv) as (Hm & Hc & _).
    unfold Wedged, issuing, targetOf, retries. rewrite Hm, Hc. auto.
  - intros o Ho. destruct o; try exact I; try discriminate.
    + intros d H. cbn. rewrite (Wedged_checkCommand k d H). exact H.
    + apply Wedged_updateCycle.
    + intros d H. exact H.
Qed.

End NanTarget.

(** X10: a target that is NaN or [undefined] wedges the command: the
    progress test and the convergence test are both false from then on, so
    the retry policy never retries it and the check never clears it; only a
    new command changes that. *)
Theorem nan_target_wedges (ops : list Op) (d : Driver) :
  let k := burnerLevelCommand in
  issuing k d = true ->
  num (targetOf k d) = nan ->
  forallb (fun o => negb (isCommandOp o || isRetryOp o)) ops = true ->
  issuing k (run ops d) = true
  /\ retries k (run ops d) = retries k d
  /\ targetOf k (run ops d) = targetOf k d.
Proof.
  cbv zeta. intros Hi Hn Hops.
  destruct (Wedged_run _ (retries burnerLevelCommand d) Hn ops Hops d)
    as (Hi' & Ht & Hr).
  { repeat split. exact Hi. }
  repeat split; assumption.
Qed.

Lemma nan_target_wedges_witness :
  retries burnerLevelCommand
    (run [OpUpdateCycle (fun _ => 3); OpUpdateCycle (fun _ => 4);
          OpCheckCommand burnerLevelCommand]
       (command burnerLevelCommand "set_to" nan (virtualDriver None)))
  = 0%nat.
Proof.
  pose proof (nan_target_wedges
                [OpUpdateCycle (fun _ => 3); OpUpdateCycle (fun _ => 4);
                 OpCheckCommand burnerLevelCommand]
                (command burnerLevelCommand "set_to" nan (virtualDriver None)))
    as H.
  cbv zeta in H.
  destruct H as (_ & H & _); [reflexivity | reflexivity | reflexivity |].
  exact H.
Defined.

(** ** An idle command *)

Section IdleCommand.

Variable c : Commands.
Hypothesis idle : issuingCommand (c_burnerLevel (commandsById c)) = false.

Lemma Idle_checkCommand (k : ICommandKey) : Keeps (Idle c) (checkCommand k).
Proof.
  intros d H. unfold Idle in *. rewrite checkCommand_not_issuing; [exact H|].
  destruct k. unfold issuing, getCommand. now rewrite H.
Qed.

Lemma Idle_updateCycle (draw : MeasureKey -> float) : Keeps (Idle c) (updateCycle draw).
Proof.
  apply updateCycle_keeps.
  - intros d H. exact H.
  - intros key d H. unfold Idle in *.
    now destruct (updateMeasure_commands_params draw d key) as [-> _].
  - intros k d H. apply (Idle_checkCommand k) in H. unfold Idle in *.
    unfold updateCommand. destruct k. exact H.
Qed.

Lemma Idle_run (ops : list Op) :
  forallb (fun o => negb (isCommandOp o || isRetryOp o)) ops = true ->
  Keeps (Idle c) (run ops).
Proof.
  apply run_keeps.
  - intros d d' Hv H. unfold Idle, view in *. now injection Hv as _ -> _.
  - intros o Ho. destruct o; try exact I; try discriminate.
    + apply Idle_checkCommand.
    + apply Idle_updateCycle.
    + intros d H. exact H.
Qed.

End IdleCommand.

(** X11: only [command] starts a command: while [issuingCommand] is
    false, no [connect], [disconnect], [checkCommand], update cycle or
    parameter change writes anything to the command's record, so it stays
    idle with its retry counter and [lastCommand] as they were. *)
Theorem idle_until_next_command (ops : list Op) (d : Driver) :
  issuing burnerLevelCommand d = false ->
  forallb (fun o => negb (isCommandOp o || isRetryOp o)) ops = true ->
  commands (state (run ops d)) = commands (state d).
Proof.
  intros Hi Hops.
  apply (Idle_run (commands (state d)) Hi ops Hops d). reflexivity.
Qed.

Lemma idle_until_next_command_witness :
  commands (state (run [OpConnect 0.9; OpUpdateCycle (fun _ => 3);
                        OpCheckCommand burnerLevelCommand; OpDisconnect]
                     (virtualDriver None)))
  = commands initialState.
Proof.
  exact (idle_until_next_command
           [OpConnect 0.9; OpUpdateCycle (fun _ => 3);
            OpCheckCommand burnerLevelCommand; OpDisconnect]
           (virtualDriver None) eq_refl eq_refl).
Defined.

(** ** What an update cycle writes *)

Lemma measureKey_eqb_eq (a b : MeasureKey) : measureKey_eqb a b = true <-> a = b.
Proof. destruct a, b; cbn; split; congruence. Qed.

Lemma updateMeasure_value (draw : MeasureKey -> float) (d : Driver)
    (a key : MeasureKey) :
  valueOf key (updateMeasure draw d a)
  = if measureKey_eqb key a && negb (hasTarget (getMeasure (state d) key))
    then draw key else valueOf key d.
Proof.
  unfold updateMeasure, valueOf.
  destruct a, key; cbn [measureKey_eqb andb];
    try (destruct (negb (hasTarget _)); reflexivity).
Qed.

Lemma updateMeasures_value (draw : MeasureKey -> float) (l : list MeasureKey)
    (key : MeasureKey) (d : Driver) :
  valueOf key (fold_left (updateMeasure draw) l d)
  = if existsb (measureKey_eqb key) l && negb (hasTarget (getMeasure (state d) key))
    then draw key else valueOf key d.
Proof.
  revert d. induction l as [|a l IH]; intros d; [reflexivity|].
  cbn [fold_left existsb]. rewrite IH.
  rewrite (frame_hasTarget _ _ (Frame_updateMeasure draw d a)).
  rewrite updateMeasure_value.
  destruct (measureKey_eqb key a), (existsb (measureKey_eqb key) l),
    (negb (hasTarget (getMeasure (state d) key))); reflexivity.
Qed.

Lemma checkCommand_measures (k : ICommandKey) (d : Driver) (key : MeasureKey) :
  value (getMeasure (state (checkCommand k d)) key)
  = value (getMeasure (state d) key)
  /\ targetValue (getMeasure (state (checkCommand k d)) key)
     = targetValue (getMeasure (state d) key).
Proof.
  rewrite checkCommand_cases. cbv zeta.
  destruct (shouldRetryCommand k (state d) (params d));
    destruct (withinTolerance k (state d) && _);
    unfold onCommand, onState, withState, log; cbn [state];
    rewrite ?retryCommand_state; destruct k, key; split; reflexivity.
Qed.

Lemma updateCommand_value (d : Driver) (k : ICommandKey) (key : MeasureKey) :
  valueOf key (updateCommand d k) = valueOf key d.
Proof.
  unfold updateCommand, valueOf.
  destruct (checkCommand_measures k d key) as [<- _].
  destruct k, key; reflexivity.
Qed.

(** X12: an update cycle gives a fresh draw to exactly the measures that
    are listed in [byName] and have no target; every other measure keeps
    its value, whatever the command check does in the same cycle. *)
Theorem updateCycle_values (draw : MeasureKey -> float) (d : Driver)
    (key : MeasureKey) :
  valueOf key (updateCycle draw d)
  = if redrawn key (state d) then draw key else valueOf key d.
Proof.
  unfold updateCycle, redrawn.
  set (d1 := fold_left (updateMeasure draw) _ _).
  transitivity (valueOf key d1).
  - apply (fold_left_invariant (fun d' => valueOf key d' = valueOf key d1));
      [|reflexivity].
    intros d0 k H. now rewrite updateCommand_value.
  - subst d1. now rewrite updateMeasures_value.
Qed.

Lemma fold_left_last {A : Type} (P : Driver -> Prop) (f : Driver -> A -> Driver)
    (l : list A) :
  (forall d a, P (f d a)) -> l <> [] -> forall d, P (fold_left f l d).
Proof.
  intros Hf. induction l as [|a l IH]; intros Hl d; [congruence|].
  cbn. destruct l as [|b l]; [apply Hf|].
  apply IH. discriminate.
Qed.

(** X13: after an update cycle that checks the burner command,
    [previousValue] equals the measure's value, whether or not the check
    retried; so the next progress test compares the value with itself as
    long as nothing moves it. *)
Theorem updateCycle_previousValue (draw : MeasureKey -> float) (d : Driver) :
  commandsByName (commands (state d)) <> [] ->
  previousOf burnerLevelCommand (updateCycle draw d)
  = Some (valueOf burnerLevel (updateCycle draw d)).
Proof.
  intros Hn. unfold updateCycle.
  set (d1 := fold_left (updateMeasure draw) _ _).
  assert (Hc : commands (state d1) = commands (state d)).
  { subst d1.
    apply (fold_left_invariant (fun d' => commands (state d') = commands (state d)));
      [|reflexivity].
    intros d0 a H. now destruct (updateMeasure_commands_params draw d0 a) as [-> _]. }
  apply (fold_left_last
           (fun d' => previousOf burnerLevelCommand d' = Some (valueOf burnerLevel d'))).
  - intros d0 []. reflexivity.
  - now rewrite Hc.
Qed.

Lemma updateCycle_previousValue_witness :
  previousOf burnerLevelCommand
    (updateCycle (fun _ => 3)
       (command burnerLevelCommand "set_to" 40 (virtualDriver None)))
  = Some 0.
Proof.
  pose proof (updateCycle_previousValue (fun _ => 3)
                (command burnerLevelCommand "set_to" 40 (virtualDriver None)))
    as H.
  rewrite H; [reflexivity | discriminate].
Defined.

(** ** Fields that no operation writes *)

Lemma shape_onMeasure (k : MeasureKey) (f : IMeasure -> IMeasure) (d : Driver) :
  (forall m, measureShape (f m) = measureShape m) ->
  shape (state (onMeasure k f d)) = shape (state d).
Proof.
  intros H. unfold shape. destruct k; cbn; now rewrite H.
Qed.

Lemma shape_onCommand (k : ICommandKey) (f : ICommand -> ICommand) (d : Driver) :
  (forall c, commandShape (f c) = commandShape c) ->
  shape (state (onCommand k f d)) = shape (state d).
Proof.
  intros H. unfold shape. destruct k; cbn. now rewrite H.
Qed.

Lemma shape_retryCommand (k : ICommandKey) (d : Driver) :
  shape (state (retryCommand k d)) = shape (state d).
Proof.
  rewrite retryCommand_state. destruct k. reflexivity.
Qed.

Lemma shape_checkCommand (k : ICommandKey) (d : Driver) :
  shape (state (checkCommand k d)) = shape (state d).
Proof.
  rewrite checkCommand_cases. cbv zeta.
  destruct (shouldRetryCommand k (state d) (params d));
    destruct (withinTolerance k (state d) && _);
    rewrite ?shape_onCommand by reflexivity;
    cbn [log state]; rewrite ?shape_retryCommand; reflexivity.
Qed.

Lemma shape_run (sh : _) (ops : list Op) :
  Keeps (fun d => shape (state d) = sh) (run ops).
Proof.
  apply (run_keeps _ (fun _ => true)); [| |apply forallb_forall; reflexivity].
  - intros d d' Hv H. destruct (view_projections d d' Hv) as (Hm & Hc & Hn & _).
    unfold view in Hv. injection Hv as Hme _ _.
    unfold shape in *. now rewrite !Hm, Hc, Hn, Hme.
  - intros o _. destruct o; try exact I; intros d H; cbn [step].
    + rewrite command_state. destruct control. exact H.
    + now rewrite shape_checkCommand.
    + now rewrite shape_retryCommand.
    + revert d H. apply (updateCycle_keeps (fun d => shape (state d) = sh) draw).
      * intros d H. exact H.
      * intros key d H. unfold updateMeasure. destruct (negb _); [|exact H].
        cbn [log state]. now rewrite shape_onMeasure by reflexivity.
      * intros k d H. unfold updateCommand.
        rewrite shape_onMeasure by reflexivity. now rewrite shape_checkCommand.
    + exact H.
Qed.

(** X14: no operation changes what a measure or a command is: the two
    [byName] lists, each measure's [type] and [hasTarget], and the command's
    [linkedMeasure], behaviour, [min], [max], [supportedVerbs] and
    [frequencyCycleCounter] are the same after every run. *)
Theorem shape_never_changes (ops : list Op) (d : Driver) :
  shape (state (run ops d)) = shape (state d).
Proof.
  now apply (shape_run (shape (state d)) ops d).
Qed.

(** ** Connecting and disconnecting *)

Lemma filter_idempotent {A : Type} (f : A -> bool) (l : list A) :
  filter f (filter f l) = filter f l.
Proof.
  induction l as [|a l IH]; [reflexivity|]. cbn.
  destruct (f a) eqn:E; cbn; rewrite ?E, IH; reflexivity.
Qed.

(** X15: [disconnect] is idempotent: a second call finds [connected]
    false and the interval already cleared, and changes nothing. *)
Theorem disconnect_idempotent (d : Driver) :
  disconnect (disconnect d) = disconnect d.
Proof.
  rewrite (disconnect_unfold (disconnect d)). rewrite !disconnect_unfold.
  cbn. destruct (updateCycleId d); [|reflexivity].
  now rewrite filter_idempotent.
Qed.

(** X16: a second successful [connect] starts a second interval and
    overwrites [updateCycleId]; [disconnect] then clears only the second,
    and the first update cycle stays registered on a driver that says
    [connected = false]. *)
Theorem second_connect_leaks_update_cycle (r1 r2 : float) (d : Driver) :
  let p := connectionRejectionPercentage (params d) / 100.0 in
  (r1 <? p) = false ->
  (r2 <? p) = false ->
  let d' := disconnect (connect r2 (connect r1 d)) in
  In (nextTimerId d, Interval updateCycleCallback (samplingFrequency (params d)))
     (timers d')
  /\ ~ In (S (nextTimerId d),
           Interval updateCycleCallback (samplingFrequency (params d)))
          (timers d')
  /\ updateCycleId d' = Some (S (nextTimerId d))
  /\ connected (state d') = false.
Proof.
  cbv zeta. intros H1 H2.
  rewrite (connect_resolved r1 d H1).
  set (d1 := log LogSuccessfullyConnected _).
  assert (H2' : (r2 <? connectionRejectionPercentage (params d1) / 100.0) = false)
    by exact H2.
  rewrite (connect_resolved r2 d1 H2'). rewrite disconnect_unfold. cbn.
  rewrite !filter_app. cbn. rewrite Nat.eqb_refl. cbn.
  assert (Hne : (nextTimerId d =? S (nextTimerId d))%nat = false)
    by (apply Nat.eqb_neq; lia).
  rewrite Hne. cbn. rewrite !app_nil_r. repeat split.
  - apply in_or_app. right. now left.
  - intros Hin. apply in_app_or in Hin as [Hin|[Hin|[]]].
    + apply filter_In in Hin as [_ Hin]. cbn in Hin.
      rewrite Nat.eqb_refl in Hin. discriminate.
    + injection Hin as Hin. lia.
Qed.

Lemma second_connect_leaks_update_cycle_witness :
  In (1%nat, Interval updateCycleCallback 1000)
     (timers (disconnect (connect 0.9 (connect 0.8 (virtualDriver None))))).
Proof.
  exact (proj1 (second_connect_leaks_update_cycle 0.8 0.9 (virtualDriver None)
                  eq_refl eq_refl)).
Defined.

(** ** Reconnection *)

Lemma find_app_none {A : Type} (f : A -> bool) (l1 l2 : list A) :
  (forall e, In e l1 -> f e = false) -> find f (l1 ++ l2) = find f l2.
Proof.
  induction l1 as [|a l1 IH]; intros H; [reflexivity|].
  cbn. rewrite (H a (or_introl eq_refl)). apply IH.
  intros e He. apply H. now right.
Qed.

Lemma retryAllowed_reconnecting (d : Driver) :
  retryAllowed d
  = reconnecting (maxReconnectionAttempts (params d))
                 (S (failedConnections (state d))).
Proof. reflexivity. Qed.

Lemma reconnecting_true (m : Z) (j : nat) :
  reconnecting m j = true <-> (m = 0 \/ Z.of_nat j < m)%Z.
Proof.
  unfold reconnecting. rewrite orb_true_iff, Z.eqb_eq, Z.ltb_lt. reflexivity.
Qed.

(** X17: [disconnect] does not cancel a reconnection attempt that is
    waiting: after a failed [connect] that scheduled a retry, the timeout is
    still registered after [disconnect], and when it fires with a draw that
    is accepted the driver is connected again. *)
Theorem pending_reconnect_survives_disconnect (r r' : float)
    (draw : MeasureKey -> float) (d : Driver) :
  let p := connectionRejectionPercentage (params d) / 100.0 in
  let id := nextTimerId d in
  let limit := maxReconnectionAttempts (params d) in
  (r <? p) = true ->
  (limit = 0 \/ Z.of_nat (S (failedConnections (state d))) < limit)%Z ->
  (forall e, In e (timers d) -> fst e <> id) ->
  updateCycleId d <> Some id ->
  (r' <? p) = false ->
  let d1 := disconnect (connect r d) in
  In (id, Timeout connectCallback 1000) (timers d1)
  /\ connected (state d1) = false
  /\ connected (state (fire id r' draw d1)) = true.
Proof.
  cbv zeta. intros Hr Hallow Hfresh Hcycle Hr'.
  set (x := (nextTimerId d, Timeout connectCallback 1000)).
  assert (H0 : timers (connect r d) = timers d ++ [x]
               /\ updateCycleId (connect r d) = updateCycleId d
               /\ params (connect r d) = params d).
  { rewrite (connect_rejected r d Hr), retryAllowed_reconnecting.
    rewrite (proj2 (reconnecting_true _ _) Hallow). repeat split. }
  destruct H0 as (Htim & Hu & Hp).
  rewrite disconnect_unfold. rewrite Htim, Hu, Hp.
  set (old := match updateCycleId d with
              | Some i => filter (fun e => negb (fst e =? i)%nat) (timers d)
              | None => timers d
              end).
  assert (Ht : match updateCycleId d with
               | Some i => filter (fun e => negb (fst e =? i)%nat) (timers d ++ [x])
               | None => timers d ++ [x]
               end = old ++ [x]).
  { subst old. destruct (updateCycleId d) as [i|]; [|reflexivity].
    rewrite filter_app. cbn.
    assert (Hi : (nextTimerId d =? i)%nat = false)
      by (apply Nat.eqb_neq; congruence).
    now rewrite Hi. }
  rewrite Ht.
  assert (Hold : forall e, In e old -> (fst e =? nextTimerId d)%nat = false).
  { intros e He. apply Nat.eqb_neq. apply Hfresh. subst old.
    destruct (updateCycleId d); [now apply filter_In in He|exact He]. }
  split; [cbn [timers]; apply in_or_app; right; now left|].
  split; [reflexivity|].
  unfold fire. cbn [timers]. rewrite (find_app_none _ old [x] Hold).
  unfold x at 1. cbn [find fst]. rewrite Nat.eqb_refl. cbn [runCallback].
  rewrite (connect_resolved r') by exact Hr'. reflexivity.
Qed.

Lemma pending_reconnect_survives_disconnect_witness :
  connected
    (state (fire 1 0.9 (fun _ => 0)
              (disconnect (connect 0.1 (virtualDriver None))))) = true.
Proof.
  pose proof (pending_reconnect_survives_disconnect 0.1 0.9 (fun _ => 0)
                (virtualDriver None)) as H.
  cbv zeta in H.
  destruct H as (_ & _ & H);
    [reflexivity | now left | intros e [] | discriminate | reflexivity |].
  exact H.
Defined.

Lemma attemptsAfter_closed (m : Z) (n j : nat) :
  attemptsAfter m j n
  = if (m =? 0)%Z then (j + n)%nat
    else Nat.max j (Nat.min (j + n) (Z.to_nat m)).
Proof.
  revert j. induction n as [|n IH]; intros j.
  - cbn. destruct (m =? 0)%Z; lia.
  - cbn [attemptsAfter]. rewrite IH. unfold reconnecting.
    destruct (Z.eqb_spec m 0) as [E|E]; cbn [orb]; [lia|].
    destruct (Z.ltb_spec (Z.of_nat j) m) as [L|L]; lia.
Qed.

Section GivingUp.

Variable p : IParams.

Lemma Reconnecting_connect (r : float) (d : Driver) :
  params d = p -> timers d = [] -> rejectedUnder p r ->
  Reconnecting p (S (failedConnections (state d))) (connect r d).
Proof.
  intros Hp Ht Hr. unfold rejectedUnder in Hr. rewrite <- Hp in Hr.
  rewrite (connect_rejected r d Hr), retryAllowed_reconnecting, Hp.
  unfold Reconnecting.
  destruct (reconnecting _ _); cbn; rewrite ?Ht; repeat split; auto.
Qed.

Lemma Reconnecting_fire (r : float) (j : nat) (d : Driver) :
  Reconnecting p j d -> reconnecting (maxReconnectionAttempts p) j = true ->
  rejectedUnder p r ->
  pendingReconnect d = Some (Nat.pred (nextTimerId d))
  /\ Reconnecting p (S j)
       (fire (Nat.pred (nextTimerId d)) r (fun _ => 0) d).
Proof.
  intros (Hp & Hf & Hc & Ht) Hj Hr. rewrite Hj in Ht.
  split; [unfold pendingReconnect; now rewrite Ht|].
  unfold fire. rewrite Ht. cbn [find fst]. rewrite Nat.eqb_refl.
  cbn [runCallback].
  set (d2 := clearInterval _ d).
  assert (Ht2 : timers d2 = []).
  { subst d2. cbn. rewrite Ht. cbn. now rewrite Nat.eqb_refl. }
  rewrite <- Hf.
  change (failedConnections (state d)) with (failedConnections (state d2)).
  now apply Reconnecting_connect.
Qed.

Lemma Reconnecting_autoReconnect (rs : list float) (j : nat) (d : Driver) :
  Reconnecting p j d -> Forall (rejectedUnder p) rs ->
  Reconnecting p (attemptsAfter (maxReconnectionAttempts p) j (List.length rs))
               (autoReconnect rs d).
Proof.
  revert j d. induction rs as [|r rs IH]; intros j d H Hrs; [exact H|].
  apply Forall_cons_iff in Hrs as [Hr Hrs].
  cbn [autoReconnect List.length attemptsAfter].
  destruct (reconnecting (maxReconnectionAttempts p) j) eqn:E.
  - destruct (Reconnecting_fire r j d H E Hr) as [-> H'].
    now apply IH.
  - destruct H as (Hp & Hf & Hc & Ht). rewrite E in Ht.
    unfold pendingReconnect. rewrite Ht. cbn.
    unfold Reconnecting. rewrite E. auto.
Qed.

End GivingUp.

(** X18: automatic reconnection gives up: on a driver with no timer
    registered, when every draw is rejected, the attempts that [connect]
    schedules for itself stop once [failedConnections] has reached
    [maxReconnectionAttempts]; with the limit at 0 they never stop.  The
    driver stays disconnected, and an attempt is waiting exactly when the
    limit is 0 or not yet reached. *)
Theorem reconnection_gives_up (r0 : float) (rs : list float) (d : Driver) :
  let limit := maxReconnectionAttempts (params d) in
  let j0 := S (failedConnections (state d)) in
  let n := List.length rs in
  timers d = [] ->
  Forall (rejectedUnder (params d)) (r0 :: rs) ->
  let d' := autoReconnect rs (connect r0 d) in
  connected (state d') = false
  /\ failedConnections (state d')
     = (if (limit =? 0)%Z then (j0 + n)%nat
        else Nat.max j0 (Nat.min (j0 + n) (Z.to_nat limit)))
  /\ (pendingReconnect d' = None <->
      (limit <> 0 /\ limit <= Z.of_nat (failedConnections (state d')))%Z).
Proof.
  cbv zeta. intros Ht Hrs. apply Forall_cons_iff in Hrs as [Hr0 Hrs].
  pose proof (Reconnecting_connect (params d) r0 d eq_refl Ht Hr0) as H1.
  pose proof (Reconnecting_autoReconnect (params d) rs _ _ H1 Hrs) as H.
  rewrite attemptsAfter_closed in H.
  destruct H as (Hp & Hf & Hc & Htim).
  split; [exact Hc|]. split; [exact Hf|].
  unfold pendingReconnect. rewrite Htim, Hf.
  set (j := if (maxReconnectionAttempts (params d) =? 0)%Z then _ else _).
  destruct (reconnecting (maxReconnectionAttempts (params d)) j) eqn:E.
  - apply reconnecting_true in E. cbn. split; [discriminate|lia].
  - cbn. split; [|reflexivity]. intros _.
    unfold reconnecting in E. apply orb_false_elim in E as [E1 E2].
    apply Z.eqb_neq in E1. apply Z.ltb_ge in E2. lia.
Qed.

Lemma reconnection_gives_up_witness :
  let d := setParams (mkParams 100 1 1000 3 true 10 1) (virtualDriver None) in
  failedConnections
    (state (autoReconnect [0.2; 0.3; 0.4; 0.5; 0.6] (connect 0.1 d))) = 3%nat.
Proof.
  intros d.
  pose proof (reconnection_gives_up 0.1 [0.2; 0.3; 0.4; 0.5; 0.6] d) as H.
  cbv zeta in H.
  destruct H as (_ & H & _);
    [reflexivity | repeat constructor |].
  vm_compute in H. vm_compute. exact H.
Defined.

(** ** A command that is satisfied when it is issued *)

(** X19: asking for the value the measure already has still costs a
    retry: on the first check after ["set_to"] with the current value (when
    that value passes the tolerance test against itself and the budget
    allows a retry), the distance has not shrunk, so [checkCommand] first
    retries and only then clears [issuingCommand]. *)
Theorem satisfied_command_is_retried_once (d : Driver) :
  let k := burnerLevelCommand in
  let v := valueOf burnerLevel d in
  (abs (v - v) <=? 0.01 * v) = true ->
  canRetryCommand k (state d) (params d) = true ->
  let d' := checkCommand k (command k "set_to" v d) in
  issuing k d' = false
  /\ retries k d' = S (retries k d)
  /\ console d'
     = console d
       ++ [LogIssuingCommand k "set_to" v;
           Invoked k (Some "set_to"%string) (Some v);
           LogChangingTarget;
           LogShouldRetry true true true (v - v) (v - v);
           Invoked k None None;
           LogNotImplemented None None;
           LogStopCommand].
Proof.
  cbv zeta.
  destruct d as [[[[mb ma [bv ty h tv pv]] mn]
                  [[[lm [] lo hi ic lc fcc rc sv]] cn] cd fc] p u ti n co].
  unfold valueOf, canRetryCommand, issuing, retries. cbn. intros Htol Hbudget.
  pose proof (leb_refl_of_leb _ _ Htol) as Hcmp.
  unfold checkCommand, shouldRetryCommand, shouldRetryCommandLog,
    requestedTargetChange, progressionNotObserved, currentDistance,
    previousDistance, canRetryCommand, withinTolerance, retryCommand, invoke.
  cbn. rewrite Hcmp, Hbudget. cbn. rewrite Htol. cbn.
  repeat split. now rewrite <- !app_assoc.
Qed.

Lemma satisfied_command_is_retried_once_witness :
  retries burnerLevelCommand
    (checkCommand burnerLevelCommand
       (command burnerLevelCommand "set_to" 0 (virtualDriver None)))
  = 1%nat.
Proof.
  pose proof (satisfied_command_is_retried_once (virtualDriver None)) as H.
  cbv zeta in H.
  destruct H as (_ & H & _); [reflexivity | reflexivity |].
  exact H.
Defined.

(** ** The update cycle that [disconnect] misses *)

(** C7: the interface documents [disconnect] as the call that stops the
    update cycle, and it does clear the interval in [updateCycleId]; but
    [startUpdateCycle] overwrites that id on every successful [connect]
    without clearing the interval it held.  On a fresh driver, after two
    accepted [connect()] calls and a [disconnect()], [connected] is false,
    [updateCycleId] is 2, and interval 1 is still registered: when it fires,
    the update cycle runs and redraws [beanTemperature] on a driver that has
    been disconnected.  Command history is kept along the way. *)
Lemma disconnect_misses_earlier_update_cycle :
  let d := disconnect (connect 0.9 (connect 0.8 (virtualDriver None))) in
  let draw := fun _ : MeasureKey => 321 in
  connected (state d) = false
  /\ updateCycleId d = Some 2%nat
  /\ timers d = [(1%nat, Interval updateCycleCallback 1000)]
  /\ retries burnerLevelCommand d = 0%nat
  /\ valueOf beanTemperature d = 0
  /\ valueOf beanTemperature (fire 1 0.5 draw d) = 321
  /\ console (fire 1 0.5 draw d)
     = console d ++ [LogUpdatingMeasures;
                     LogUpdated beanTemperature 321;
                     LogUpdated airTemperature 321;
                     LogShouldRetry false true true 0 0].
Proof.
  cbv zeta. repeat split.
Qed.
